(** * Gridlock: the Rect class, the coordinate mapper and the drag handlers

    A shallow embedding of [src/gridlock.py].  Python integers are [Z];
    Python floats are IEEE 754 binary64 values, taken from the
    inductive specification [spec_float] of the standard library
    (precision 53, exponent bound 1024), so that every operation below
    rounds exactly as CPython does; a Python exception is an error result
    and the mutable [GridLock] object, the target window and the calls
    made to the window manager are threaded through a small state and
    exception monad. *)

From Stdlib Require Import ZArith List Bool Lia Sorted.
From Stdlib Require Import Floats.SpecFloat.
Import ListNotations.
Open Scope Z_scope.

(** ** Exceptions and fallible results *)

Inductive exn : Type :=
| TypeError
| ValueError
| OverflowError
| ZeroDivisionError
| AttributeError.

Inductive result (A : Type) : Type :=
| Ok (a : A)
| Raise (e : exn).

Arguments Ok {A} a.
Arguments Raise {A} e.

Definition rbind {A B : Type} (r : result A) (k : A -> result B) : result B :=
  match r with
  | Ok a => k a
  | Raise e => Raise e
  end.

Notation "x <- r ;; k" := (rbind r (fun x => k))
  (at level 61, r at next level, right associativity).

(** ** Python numbers *)

Module PyNum.

Definition prec : Z := 53.
Definition emax : Z := 1024.

(** A Python [float]: a binary64 value. *)
Definition pyfloat : Type := spec_float.

Definition fmul : pyfloat -> pyfloat -> pyfloat := SFmul prec emax.
Definition fdiv : pyfloat -> pyfloat -> pyfloat := SFdiv prec emax.

(** The integer [n] rounded to nearest even; the float literal with that
    value, such as [250.0]. *)
Definition float_lit (n : Z) : pyfloat :=
  binary_normalize prec emax n 0 false.

(** [float(n)] for an [int]: rounded to nearest even, [OverflowError]
    when [n] is too large for a binary64. *)
Definition float_of_int (n : Z) : result pyfloat :=
  match float_lit n with
  | S754_infinity _ => Raise OverflowError
  | f => Ok f
  end.

(** [n * f] with [n] an [int] and [f] a [float]: the integer is
    converted first, the product never raises. *)
Definition mul_int_float (n : Z) (f : pyfloat) : result pyfloat :=
  a <- float_of_int n ;;
  Ok (fmul a f).

(** [a / b] on two floats. *)
Definition float_truediv (a b : pyfloat) : result pyfloat :=
  match b with
  | S754_zero _ => Raise ZeroDivisionError
  | _ => Ok (fdiv a b)
  end.

(** [a / b] on two [int]s: the quotient of the two integers, taken as
    mantissas with exponent 0, rounded once to nearest even;
    [OverflowError] when it is too large for a binary64. *)
Definition int_truediv (a b : Z) : result pyfloat :=
  if b =? 0 then Raise ZeroDivisionError
  else if a =? 0 then Ok (S754_zero (b <? 0))
  else
    match fdiv (S754_finite (a <? 0) (Z.to_pos (Z.abs a)) 0)
               (S754_finite (b <? 0) (Z.to_pos (Z.abs b)) 0) with
    | S754_infinity _ => Raise OverflowError
    | f => Ok f
    end.

(** [int(f)]: truncation toward zero; infinities and NaN raise. *)
Definition int_of_float (f : pyfloat) : result Z :=
  match f with
  | S754_zero _ => Ok 0
  | S754_infinity _ => Raise OverflowError
  | S754_nan => Raise ValueError
  | S754_finite s m e =>
      let a := Z.shiftl (Zpos m) e in
      Ok (if s then - a else a)
  end.

(** The builtins [min] and [max] on two attributes that may still be
    [None]: comparing with [None] is a [TypeError]. *)
Definition py_min (a b : option Z) : result Z :=
  match a, b with
  | Some x, Some y => Ok (Z.min x y)
  | _, _ => Raise TypeError
  end.

Definition py_max (a b : option Z) : result Z :=
  match a, b with
  | Some x, Some y => Ok (Z.max x y)
  | _, _ => Raise TypeError
  end.

(** The float [1.0], as [float_of_int 1] computes it. *)
Definition fone : pyfloat := S754_finite false 4503599627370496 (-52).

End PyNum.
Import PyNum.

(** ** class Rect *)

Record Rect : Type := mkRect {
  x1 : option Z;
  y1 : option Z;
  x2 : option Z;
  y2 : option Z
}.

(** [Rect.__init__] with its defaults. *)
Definition Rect_empty : Rect := mkRect None None None None.

Definition is_set (o : option Z) : bool :=
  match o with
  | Some _ => true
  | None => false
  end.

(** [Rect.__bool__] *)
Definition Rect_bool (self : Rect) : bool :=
  is_set (x1 self) && is_set (y1 self) && is_set (x2 self) && is_set (y2 self).

(** [Rect.__copy__]: a new object with the same four attributes. *)
Definition Rect_copy (self : Rect) : Rect :=
  mkRect (x1 self) (y1 self) (x2 self) (y2 self).

Definition opt_eqb (a b : option Z) : bool :=
  match a, b with
  | Some x, Some y => x =? y
  | None, None => true
  | _, _ => false
  end.

(** [Rect.__eq__] on two rectangles: equality of the attribute tuples. *)
Definition Rect_eq (self other : Rect) : bool :=
  opt_eqb (x1 self) (x1 other) && opt_eqb (y1 self) (y1 other)
  && opt_eqb (x2 self) (x2 other) && opt_eqb (y2 self) (y2 other).

(** [Rect.to_cairo].  Every caller passes float scales and unpacks the
    returned [map] at once, so the four [int] conversions are run here. *)
Definition to_cairo (self : Rect) (scale_x scale_y : pyfloat)
  : result (Z * Z * Z * Z) :=
  lx <- py_min (x1 self) (x2 self) ;;
  ly <- py_min (y1 self) (y2 self) ;;
  hx <- py_max (x1 self) (x2 self) ;;
  hy <- py_max (y1 self) (y2 self) ;;
  a <- mul_int_float lx scale_x ;;
  b <- mul_int_float ly scale_y ;;
  c <- mul_int_float (1 + hx - lx) scale_x ;;
  d <- mul_int_float (1 + hy - ly) scale_y ;;
  px <- int_of_float a ;;
  py <- int_of_float b ;;
  pw <- int_of_float c ;;
  ph <- int_of_float d ;;
  Ok (px, py, pw, ph).

(** ** The command line, the window manager and the GridLock object *)

Definition Geometry : Type := (Z * Z * Z * Z)%type.

(** The range of a C [int]: what [Wnck.Window.get_geometry] writes and
    what [Wnck.Window.set_geometry] takes. *)
Definition fits_c_int (z : Z) : bool :=
  (-2147483648 <=? z) && (z <? 2147483648).

(** Four numbers that are all C [int]s. *)
Definition fits_c_ints (x y width height : Z) : bool :=
  fits_c_int x && fits_c_int y && fits_c_int width && fits_c_int height.

(** A C [int]. *)
Record c_int : Type := mk_c_int {
  c_int_val :> Z;
  c_int_fits : fits_c_int c_int_val = true
}.

(** The geometry of the target as [Wnck.Window.get_geometry] reports it:
    four C [int]s. *)
Definition CGeometry : Type := (c_int * c_int * c_int * c_int)%type.

(** The parsed command line ([args]) as far as the handlers read it.
    [offset] is the tuple left by the zero padding to four elements,
    [gravity] a member of [Wnck.WindowGravity]. *)
Record Args : Type := mkArgs {
  offset : list Z;
  gravity : Z;
  live_preview : bool;
  hide_cursor : bool
}.

(** The offset option after [int] has been applied to its fields:
    [args.offset += (0,) * (4 - len(args.offset))], a tuple times a
    negative number being empty. *)
Definition pad_offset (parsed : list Z) : list Z :=
  parsed ++ repeat 0 (4 - length parsed)%nat.

(** [args.offset] as the start-up code leaves it, from the option given
    on the command line or from none. *)
Definition offset_of (given : option (list Z)) : list Z :=
  match given with
  | Some parsed => pad_offset parsed
  | None => [0; 0; 0; 0]
  end.

(** The calls that change something outside the GridLock object, in the
    order they are made. *)
Inductive call : Type :=
| TargetUnmaximize
| TargetSetGeometry (gravity mask x y width height : Z)
| TargetMaximizeVertically
| TargetMaximizeHorizontally
| TargetMaximize
| CursorSetVisible (visible : bool)
| CursorQueueDraw
| CairoFillRectangle (x y width height : Z)
| GtkMainQuit.

(** What the handlers see of the desktop: the geometry of the target
    window when the session starts (four C [int]s, as
    [Wnck.Window.get_geometry] writes them), its two maximize flags as libwnck
    reports them (a maximize or unmaximize call takes effect at once), the
    [_GTK_FRAME_EXTENTS] property of the target as
    [(left, right, top, bottom)], the allocation of the grid drawing area,
    the calls made so far, whether the main loop was asked to quit and
    the exceptions PyGObject has reported for handlers.  What the window
    manager makes of a geometry request is not modelled: the request is
    recorded in [calls]. *)
Record World : Type := mkWorld {
  target_geometry : CGeometry;
  target_maximized_vert : bool;
  target_maximized_horiz : bool;
  frame_extents : option (Z * Z * Z * Z);
  allocation : Z * Z;
  calls : list call;
  main_quit : bool;
  tracebacks : list exn
}.

(** [Wnck.Window.is_maximized]: maximized in both directions. *)
Definition is_maximized (w : World) : bool :=
  target_maximized_vert w && target_maximized_horiz w.

(** The attributes of a [GridLock] instance.  [last_cursor_rect] does not
    exist before the first button press; [wnck_window] stands for the
    handle of the grid window and holds the geometry libwnck reports
    for it; [target_orig_geometry] is assigned once, from
    [self.target.get_geometry()], and so holds C [int]s. *)
Record GridLock : Type := mkGridLock {
  cols : Z;
  rows : Z;
  drag : bool;
  wnck_window : option Geometry;
  cursor_rect : Rect;
  last_cursor_rect : option Rect;
  target_orig_geometry : CGeometry;
  target_orig_maximized_vert : bool;
  target_orig_maximized_horiz : bool;
  target_orig_maximized : bool
}.

Record State : Type := mkState {
  obj : GridLock;
  env : World
}.

(** Attribute assignments. *)
Definition set_drag (b : bool) (g : GridLock) : GridLock :=
  mkGridLock (cols g) (rows g) b (wnck_window g) (cursor_rect g)
    (last_cursor_rect g) (target_orig_geometry g)
    (target_orig_maximized_vert g) (target_orig_maximized_horiz g)
    (target_orig_maximized g).

Definition set_wnck_window (h : option Geometry) (g : GridLock) : GridLock :=
  mkGridLock (cols g) (rows g) (drag g) h (cursor_rect g)
    (last_cursor_rect g) (target_orig_geometry g)
    (target_orig_maximized_vert g) (target_orig_maximized_horiz g)
    (target_orig_maximized g).

Definition set_cursor_rect (r : Rect) (g : GridLock) : GridLock :=
  mkGridLock (cols g) (rows g) (drag g) (wnck_window g) r
    (last_cursor_rect g) (target_orig_geometry g)
    (target_orig_maximized_vert g) (target_orig_maximized_horiz g)
    (target_orig_maximized g).

Definition set_last_cursor_rect (r : Rect) (g : GridLock) : GridLock :=
  mkGridLock (cols g) (rows g) (drag g) (wnck_window g) (cursor_rect g)
    (Some r) (target_orig_geometry g)
    (target_orig_maximized_vert g) (target_orig_maximized_horiz g)
    (target_orig_maximized g).

Definition set_x1 (v : Z) (r : Rect) : Rect := mkRect (Some v) (y1 r) (x2 r) (y2 r).
Definition set_y1 (v : Z) (r : Rect) : Rect := mkRect (x1 r) (Some v) (x2 r) (y2 r).
Definition set_x2 (v : Z) (r : Rect) : Rect := mkRect (x1 r) (y1 r) (Some v) (y2 r).
Definition set_y2 (v : Z) (r : Rect) : Rect := mkRect (x1 r) (y1 r) (x2 r) (Some v).

(** The effect of one call on the world. *)
Definition apply_call (c : call) (w : World) : World :=
  let v := match c with
           | TargetUnmaximize => false
           | TargetMaximizeVertically | TargetMaximize => true
           | _ => target_maximized_vert w
           end in
  let h := match c with
           | TargetUnmaximize => false
           | TargetMaximizeHorizontally | TargetMaximize => true
           | _ => target_maximized_horiz w
           end in
  let q := match c with
           | GtkMainQuit => true
           | _ => main_quit w
           end in
  mkWorld (target_geometry w) v h (frame_extents w) (allocation w)
    (calls w ++ [c]) q (tracebacks w).

Definition add_traceback (e : exn) (w : World) : World :=
  mkWorld (target_geometry w) (target_maximized_vert w)
    (target_maximized_horiz w) (frame_extents w) (allocation w)
    (calls w) (main_quit w) (tracebacks w ++ [e]).

(** ** Handlers as state transformers that may raise *)

Definition M (A : Type) : Type := State -> result A * State.

Definition ret {A : Type} (a : A) : M A := fun s => (Ok a, s).

Definition bind {A B : Type} (m : M A) (k : A -> M B) : M B :=
  fun s =>
    match m s with
    | (Ok a, s') => k a s'
    | (Raise e, s') => (Raise e, s')
    end.

Notation "x <~ m ;; k" := (bind m (fun x => k))
  (at level 61, m at next level, right associativity).
Notation "m ;;; k" := (bind m (fun _ => k))
  (at level 61, right associativity).

(** A pure computation run inside a handler. *)
Definition lift {A : Type} (r : result A) : M A := fun s => (r, s).

Definition get_self : M GridLock := fun s => (Ok (obj s), s).

Definition update_self (f : GridLock -> GridLock) : M unit :=
  fun s => (Ok tt, mkState (f (obj s)) (env s)).

Definition do_call (c : call) : M unit :=
  fun s => (Ok tt, mkState (obj s) (apply_call c (env s))).

Definition when (b : bool) (m : M unit) : M unit :=
  if b then m else ret tt.

(** [self.target.is_maximized()] *)
Definition target_is_maximized : M bool :=
  fun s => (Ok (is_maximized (env s)), s).

(** [self.grid.get_allocation()], as [(width, height)]. *)
Definition grid_get_allocation : M (Z * Z) :=
  fun s => (Ok (allocation (env s)), s).

(** [self.wnck_window.get_geometry()]; [None] has no such method. *)
Definition wnck_window_get_geometry : M Geometry :=
  fun s =>
    match wnck_window (obj s) with
    | Some g => (Ok g, s)
    | None => (Raise AttributeError, s)
    end.

(** [get_gtk_frame_offset]: the offset derived from the frame extents
    of the target, zero when the property is missing. *)
Definition gtk_frame_offset (prop : option (Z * Z * Z * Z)) : list Z :=
  match prop with
  | Some (l, r, t, b) => [- l; - t; l + r; t + b]
  | None => [0; 0; 0; 0]
  end.

Definition get_gtk_frame_offset : M (list Z) :=
  fun s => (Ok (gtk_frame_offset (frame_extents (env s))), s).

(** [Wnck.WindowMoveResizeMask.X | .Y | .WIDTH | .HEIGHT] *)
Definition move_resize_mask : Z :=
  Z.lor (Z.lor (Z.lor 1 2) 4) 8.

(** [GridLock.set_raw_target_geometry].  [Wnck.Window.set_geometry] takes
    the four numbers as C [int]s: for a Python [int] outside their range
    PyGObject raises [OverflowError] and the call is not made. *)
Definition set_raw_target_geometry (args : Args) (x y width height : Z) : M unit :=
  if fits_c_ints x y width height
  then do_call (TargetSetGeometry (gravity args) move_resize_mask x y width height)
  else lift (Raise OverflowError).

(** [self.set_raw_target_geometry( *geometry)]: the call needs exactly
    four positional arguments. *)
Definition set_raw_target_geometry_star (args : Args) (geometry : list Z) : M unit :=
  match geometry with
  | [x; y; width; height] => set_raw_target_geometry args x y width height
  | _ => lift (Raise TypeError)
  end.

(** [sum(x)] for a pair produced by [zip]. *)
Definition sum_pair (p : Z * Z) : Z := 0 + fst p + snd p.

(** [tuple(sum(x) for x in zip(geometry, other))] *)
Definition add_offsets (geometry other : list Z) : list Z :=
  map sum_pair (combine geometry other).

(** The two cell sizes, [allocation.width / self.cols] and
    [allocation.height / self.rows]. *)
Definition cell_size : M (pyfloat * pyfloat) :=
  alloc <~ grid_get_allocation ;;
  self <~ get_self ;;
  cell_width <~ lift (int_truediv (fst alloc) (cols self)) ;;
  cell_height <~ lift (int_truediv (snd alloc) (rows self)) ;;
  ret (cell_width, cell_height).

(** [GridLock.set_target_geometry_from_cursor] *)
Definition set_target_geometry_from_cursor (args : Args) : M unit :=
  maximized <~ target_is_maximized ;;
  when maximized (do_call TargetUnmaximize) ;;;
  cell <~ cell_size ;;
  self <~ get_self ;;
  box <~ lift (to_cairo (cursor_rect self) (fst cell) (snd cell)) ;;
  grid <~ wnck_window_get_geometry ;;
  let '(x, y, width, height) := box in
  let '(grid_x, grid_y, _, _) := grid in
  let geometry := [x + grid_x; y + grid_y; width; height] in
  let geometry := add_offsets geometry (offset args) in
  frame_offset <~ get_gtk_frame_offset ;;
  let geometry := add_offsets geometry frame_offset in
  set_raw_target_geometry_star args geometry.

(** [GridLock.restore_target_geometry] *)
Definition restore_target_geometry (args : Args) : M unit :=
  self <~ get_self ;;
  let '(x, y, width, height) := target_orig_geometry self in
  set_raw_target_geometry args x y width height ;;;
  when (target_orig_maximized_vert self) (do_call TargetMaximizeVertically) ;;;
  when (target_orig_maximized_horiz self) (do_call TargetMaximizeHorizontally) ;;;
  when (target_orig_maximized self) (do_call TargetMaximize).

(** What a handler returns to GTK: [True] or nothing. *)
Inductive handled : Type := ReturnTrue | ReturnNone.

Definition KEY_q : Z := 113.
Definition KEY_Escape : Z := 65307.

(** [GridLock.on_draw_window], where [found] is what
    [Wnck.Window.get(xid)] returns at this draw. *)
Definition on_draw_window (found : option Geometry) : M handled :=
  self <~ get_self ;;
  when (match wnck_window self with None => true | Some _ => false end)
       (update_self (set_wnck_window found)) ;;;
  ret ReturnNone.

(** [GridLock.on_draw_cursor]: the highlight is drawn only for a cursor
    rectangle that is fully set. *)
Definition on_draw_cursor : M handled :=
  cell <~ cell_size ;;
  self <~ get_self ;;
  when (Rect_bool (cursor_rect self))
    (box <~ lift (to_cairo (cursor_rect self) (fst cell) (snd cell)) ;;
     let '(x, y, width, height) := box in
     do_call (CairoFillRectangle x y width height)) ;;;
  ret ReturnNone.

(** [GridLock.on_key_press] *)
Definition on_key_press (args : Args) (keyval : Z) : M handled :=
  if (keyval =? KEY_q) || (keyval =? KEY_Escape) then
    when (live_preview args) (restore_target_geometry args) ;;;
    do_call GtkMainQuit ;;;
    ret ReturnTrue
  else ret ReturnNone.

(** [GridLock.on_mouse_press] *)
Definition on_mouse_press (args : Args) (button : Z) : M handled :=
  if button =? 1 then
    update_self (set_drag true) ;;;
    update_self (fun g => set_last_cursor_rect (Rect_copy (cursor_rect g)) g) ;;;
    ret ReturnTrue
  else
    when (live_preview args) (restore_target_geometry args) ;;;
    do_call GtkMainQuit ;;;
    ret ReturnTrue.

(** [GridLock.on_mouse_release] *)
Definition on_mouse_release (args : Args) (button : Z) : M handled :=
  if button =? 1 then
    update_self (set_drag false) ;;;
    set_target_geometry_from_cursor args ;;;
    do_call GtkMainQuit ;;;
    ret ReturnTrue
  else ret ReturnNone.

(** [int(event.x / cell_width)] *)
Definition cell_index (pos cell : pyfloat) : result Z :=
  q <- float_truediv pos cell ;;
  int_of_float q.

(** [self.last_cursor_rect], an [AttributeError] while it does not exist. *)
Definition get_last_cursor_rect : M Rect :=
  fun s =>
    match last_cursor_rect (obj s) with
    | Some r => (Ok r, s)
    | None => (Raise AttributeError, s)
    end.

Definition assign_cursor (f : Z -> Rect -> Rect) (v : Z) : M unit :=
  update_self (fun g => set_cursor_rect (f v (cursor_rect g)) g).

(** The live preview step of a drag move. *)
Definition live_preview_step (args : Args) : M unit :=
  when (hide_cursor args) (do_call (CursorSetVisible false)) ;;;
  last <~ get_last_cursor_rect ;;
  self <~ get_self ;;
  when (negb (Rect_eq last (cursor_rect self)))
    (update_self (fun g => set_last_cursor_rect (Rect_copy (cursor_rect g)) g) ;;;
     set_target_geometry_from_cursor args).

(** [GridLock.on_mouse_move] *)
Definition on_mouse_move (args : Args) (event_x event_y : pyfloat) : M handled :=
  cell <~ cell_size ;;
  self <~ get_self ;;
  (if drag self then
     v <~ lift (cell_index event_x (fst cell)) ;;
     assign_cursor set_x2 v ;;;
     v <~ lift (cell_index event_y (snd cell)) ;;
     assign_cursor set_y2 v ;;;
     when (live_preview args) (live_preview_step args)
   else
     v <~ lift (cell_index event_x (fst cell)) ;;
     assign_cursor set_x1 v ;;;
     assign_cursor set_x2 v ;;;
     v <~ lift (cell_index event_y (snd cell)) ;;
     assign_cursor set_y1 v ;;;
     assign_cursor set_y2 v) ;;;
  do_call CursorQueueDraw ;;;
  ret ReturnNone.

(** ** The session: construction and the main loop *)

(** The input events GTK delivers to the connected handlers. *)
Inductive event : Type :=
| KeyPress (keyval : Z)
| ButtonPress (button : Z)
| ButtonRelease (button : Z)
| MotionNotify (x y : pyfloat)
| DrawWindow (found : option Geometry)
| DrawCursor.

Definition dispatch (args : Args) (e : event) : M handled :=
  match e with
  | KeyPress keyval => on_key_press args keyval
  | ButtonPress button => on_mouse_press args button
  | ButtonRelease button => on_mouse_release args button
  | MotionNotify x y => on_mouse_move args x y
  | DrawWindow found => on_draw_window found
  | DrawCursor => on_draw_cursor
  end.

(** [GridLock.__init__]: the fresh object over a world with nothing
    called yet; the original geometry and maximize flags of the target are
    read here, once. *)
Definition GridLock_init (grid : Z * Z) (w : World) : State :=
  mkState
    (mkGridLock (fst grid) (snd grid) false None Rect_empty None
       (target_geometry w) (target_maximized_vert w)
       (target_maximized_horiz w) (is_maximized w))
    w.

(** One event of [Gtk.main]: an exception leaving a handler is reported
    and the loop goes on. *)
Definition step (args : Args) (e : event) (s : State) : State :=
  match dispatch args e s with
  | (Ok _, s') => s'
  | (Raise x, s') => mkState (obj s') (add_traceback x (env s'))
  end.

(** [Gtk.main]: events are handled one after the other until a handler
    has called [Gtk.main_quit]. *)
Fixpoint Gtk_main (args : Args) (events : list event) (s : State) : State :=
  match events with
  | [] => s
  | e :: rest =>
      if main_quit (env s) then s
      else Gtk_main args rest (step args e s)
  end.

(** A desktop at the start of a session. *)
Definition fresh_world (geometry : CGeometry) (vert horiz : bool)
    (extents : option (Z * Z * Z * Z)) (alloc : Z * Z) : World :=
  mkWorld geometry vert horiz extents alloc [] false [].

(** ** The pixel box as the specification words it *)

Definition to_option {A : Type} (r : result A) : option A :=
  match r with
  | Ok a => Some a
  | Raise _ => None
  end.

(** A cell count times a cell size, truncated to an integer: the product
    of the two numbers, with nothing rounded before the truncation
    toward zero; undefined for a cell size that is infinite or not a
    number. *)
Definition scaled (n : Z) (cell : pyfloat) : option Z :=
  match cell with
  | S754_zero _ => Some 0
  | S754_finite s m e =>
      let product := n * (if s then Zneg m else Zpos m) in
      Some (if 0 <=? e then product * 2 ^ e else Z.quot product (2 ^ (- e)))
  | S754_infinity _ | S754_nan => None
  end.

Definition normalized_pixel_box (xa ya xb yb : Z) (cell_width cell_height : pyfloat)
  : option (Z * Z * Z * Z) :=
  let x1' := Z.min xa xb in
  let y1' := Z.min ya yb in
  let x2' := Z.max xa xb in
  let y2' := Z.max ya yb in
  match scaled x1' cell_width, scaled y1' cell_height,
        scaled (1 + x2' - x1') cell_width, scaled (1 + y2' - y1') cell_height with
  | Some px, Some py, Some pw, Some ph => Some (px, py, pw, ph)
  | _, _, _, _ => None
  end.

(** A rectangle with all four corners set. *)
Definition Rect_of (xa ya xb yb : Z) : Rect :=
  mkRect (Some xa) (Some ya) (Some xb) (Some yb).

(** ** Vocabulary of the statements *)

(** The world after a list of calls. *)
Definition apply_calls (cs : list call) (w : World) : World :=
  fold_left (fun w' c => apply_call c w') cs w.

(** The calls a handler has added to a list of earlier calls. *)
Definition emitted (before : list call) (s : State) : list call :=
  skipn (length before) (calls (env s)).

(** The geometry the mapper asks for, as a function of what the mapper
    reads: cell size from the allocation and the grid, pixel box of the
    cursor rectangle, origin of the grid window, user offset, offset of
    the frame extents. *)
Definition compute_target_geometry (args : Args) (self : GridLock) (w : World)
  : result (list Z) :=
  cell_width <- int_truediv (fst (allocation w)) (cols self) ;;
  cell_height <- int_truediv (snd (allocation w)) (rows self) ;;
  box <- to_cairo (cursor_rect self) cell_width cell_height ;;
  grid <- match wnck_window self with
          | Some g => Ok g
          | None => Raise AttributeError
          end ;;
  let '(x, y, width, height) := box in
  let '(grid_x, grid_y, _, _) := grid in
  Ok (add_offsets
        (add_offsets [x + grid_x; y + grid_y; width; height] (offset args))
        (gtk_frame_offset (frame_extents w))).

(** The world in which the mapper computes: the target is unmaximized
    first when it was maximized. *)
Definition unmaximized (w : World) : World :=
  if is_maximized w then apply_call TargetUnmaximize w else w.

(** The calls that unmaximize a maximized target. *)
Definition unmaximize_calls (w : World) : list call :=
  if is_maximized w then [TargetUnmaximize] else [].

(** The calls of [restore_target_geometry] for a given snapshot. *)
Definition restore_calls (args : Args) (geometry : CGeometry)
    (vert horiz maximized : bool) : list call :=
  let '(x, y, width, height) := geometry in
  [TargetSetGeometry (gravity args) move_resize_mask x y width height]
  ++ (if vert then [TargetMaximizeVertically] else [])
  ++ (if horiz then [TargetMaximizeHorizontally] else [])
  ++ (if maximized then [TargetMaximize] else []).

(** The events that cancel the session: the keys [q] and [Escape] and a
    press of any button but the first. *)
Definition is_cancel (e : event) : bool :=
  match e with
  | KeyPress keyval => (keyval =? KEY_q) || (keyval =? KEY_Escape)
  | ButtonPress button => negb (button =? 1)
  | _ => false
  end.

Definition is_set_geometry (c : call) : bool :=
  match c with
  | TargetSetGeometry _ _ _ _ _ _ => true
  | _ => false
  end.

(** Whether [set_geometry] takes the numbers of a request. *)
Definition request_fits (c : call) : bool :=
  match c with
  | TargetSetGeometry _ _ x y width height => fits_c_ints x y width height
  | _ => true
  end.


(** The normalized rectangle: minimum and maximum corner on each axis,
    defined when all four fields are set. *)
Definition normalized (r : Rect) : option (Z * Z * Z * Z) :=
  match x1 r, y1 r, x2 r, y2 r with
  | Some xa, Some ya, Some xb, Some yb =>
      Some (Z.min xa xb, Z.min ya yb, Z.max xa xb, Z.max ya yb)
  | _, _, _, _ => None
  end.


(** ** The object under the handlers *)

(** How one handler can change the attributes of the object, whether it
    returns or raises: the snapshot of the target and the grid are never
    assigned, the anchor corner only while no drag is on. *)
Inductive obj_step : GridLock -> GridLock -> Prop :=
| obj_same (g : GridLock) :
    obj_step g g
| obj_wnck (g : GridLock) (h : option Geometry) :
    obj_step g (set_wnck_window h g)
| obj_press (g : GridLock) :
    obj_step g (set_last_cursor_rect (Rect_copy (cursor_rect g)) (set_drag true g))
| obj_release (g : GridLock) :
    obj_step g (set_drag false g)
| obj_drag_x (g : GridLock) (vx : Z) :
    drag g = true ->
    obj_step g (set_cursor_rect (set_x2 vx (cursor_rect g)) g)
| obj_drag_xy (g : GridLock) (vx vy : Z) :
    drag g = true ->
    obj_step g (set_cursor_rect (set_y2 vy (set_x2 vx (cursor_rect g))) g)
| obj_drag_commit (g : GridLock) (vx vy : Z) :
    drag g = true ->
    obj_step g
      (set_last_cursor_rect
         (set_y2 vy (set_x2 vx (cursor_rect g)))
         (set_cursor_rect (set_y2 vy (set_x2 vx (cursor_rect g))) g))
| obj_idle_x (g : GridLock) (vx : Z) :
    drag g = false ->
    obj_step g (set_cursor_rect (set_x2 vx (set_x1 vx (cursor_rect g))) g)
| obj_idle_xy (g : GridLock) (vx vy : Z) :
    drag g = false ->
    obj_step g
      (set_cursor_rect
         (set_y2 vy (set_y1 vy (set_x2 vx (set_x1 vx (cursor_rect g))))) g).

(** The snapshot taken by [__init__]. *)
Definition snapshot (g : GridLock) : CGeometry * bool * bool * bool :=
  (target_orig_geometry g, target_orig_maximized_vert g,
   target_orig_maximized_horiz g, target_orig_maximized g).




(** The end of [on_mouse_move]: the cursor widget is redrawn unless
    the handler has raised. *)
Definition queue_draw_after (out : result unit * State) : result handled * State :=
  match out with
  | (Ok _, s1) =>
      (Ok ReturnNone, mkState (obj s1) (apply_call CursorQueueDraw (env s1)))
  | (Raise e, s1) => (Raise e, s1)
  end.

(** The cursor rectangle after a drag move into cell [(vx, vy)]. *)
Definition dragged_to (vx vy : Z) (r : Rect) : Rect :=
  set_y2 vy (set_x2 vx r).

(** The cursor rectangle after an idle move into cell [(vx, vy)]. *)
Definition moved_to (vx vy : Z) (r : Rect) : Rect :=
  set_y2 vy (set_y1 vy (set_x2 vx (set_x1 vx r))).

(** ** The worked example of the specification *)

Module WorkedExample.

(** A target window at (10, 20), 300 by 200, not maximized, without
    frame extents, and a grid drawing area of the given size. *)
Definition target_at_10_20 : CGeometry :=
  (mk_c_int 10 eq_refl, mk_c_int 20 eq_refl,
   mk_c_int 300 eq_refl, mk_c_int 200 eq_refl).

Definition desktop (alloc : Z * Z) : World :=
  fresh_world target_at_10_20 false false None alloc.

Definition args_of (user_offset : list Z) : Args :=
  mkArgs user_offset 0 false false.

(** The grid window is found at its first draw, with its origin at
    (0, 0); the pointer moves into cell (1, 0), the first button goes
    down, the pointer moves into cell (2, 1), the button goes up. *)
Definition drag_events (alloc : Z * Z) (pointer_a pointer_b : Z * Z) : list event :=
  [ DrawWindow (Some (0, 0, fst alloc, snd alloc));
    MotionNotify (float_lit (fst pointer_a)) (float_lit (snd pointer_a));
    ButtonPress 1;
    MotionNotify (float_lit (fst pointer_b)) (float_lit (snd pointer_b));
    ButtonRelease 1 ].

(** The session over a grid of 4 columns and 2 rows. *)
Definition session (user_offset : list Z) (alloc : Z * Z)
    (pointer_a pointer_b : Z * Z) : State :=
  Gtk_main (args_of user_offset) (drag_events alloc pointer_a pointer_b)
    (GridLock_init (4, 2) (desktop alloc)).

(** The geometry requests of a session, as [(x, y, width, height)]. *)
Definition requests (s : State) : list Geometry :=
  flat_map
    (fun c =>
       match c with
       | TargetSetGeometry _ _ x y width height => [(x, y, width, height)]
       | _ => []
       end)
    (calls (env s)).

(** A session with live preview in which the grid window has been found,
    the pointer has moved into cell (1, 0) and the first button is down. *)
Definition preview_args : Args := mkArgs [0; 0; 0; 0] 0 true false.

Definition dragging : State :=
  Gtk_main preview_args
    [ DrawWindow (Some (0, 0, 800, 400));
      MotionNotify (float_lit 250) (float_lit 50);
      ButtonPress 1 ]
    (GridLock_init (4, 2) (desktop (800, 400))).

(** A session in which the first button goes down and up before the
    pointer has moved. *)
Definition click_events : list event :=
  [ DrawWindow (Some (0, 0, 800, 400)); ButtonPress 1; ButtonRelease 1 ].

End WorkedExample.

(** ** Colours and grid lines *)

(** [f < 0 or f > 1] on a float. *)
Definition out_of_unit (f : pyfloat) : bool :=
  SFltb f (S754_zero false) || SFltb fone f.

(** [parse_color_spec], on the fields of the argument after [float] has
    been applied to each of them. *)
Definition parse_color_spec (fields : list pyfloat) : result (list pyfloat) :=
  let color_spec :=
    if (length fields =? 3)%nat then fields ++ [fone] else fields in
  if negb (length color_spec =? 4)%nat then Raise ValueError
  else if existsb out_of_unit color_spec then Raise ValueError
  else Ok color_spec.

(** A component a colour may have: not a number, or between 0 and 1. *)
Definition unit_or_nan (f : pyfloat) : Prop :=
  f = S754_nan
  \/ (SFleb (S754_zero false) f = true /\ SFleb f fone = true).

(** The part of the command line the drawing handlers read. *)
Record DrawArgs : Type := mkDrawArgs {
  grid_color : list pyfloat;
  bg_color : list pyfloat;
  hi_color : list pyfloat;
  grid_thickness : Z
}.

(** The calls made on a cairo context. *)
Inductive cairo_op : Type :=
| SetSourceRgba (color : list pyfloat)
| CairoRectangle (x y width height : Z)
| CairoFill
| SetLineWidth (thickness : Z)
| SetLineJoinRound
| MoveTo (x y : Z)
| LineTo (x y : Z)
| Stroke.

(** [range(start, stop)] *)
Definition py_range (start stop : Z) : list Z :=
  map (fun k => start + Z.of_nat k) (seq 0 (Z.to_nat (stop - start))).

(** The vertical line of [on_draw_grid] for column [i]. *)
Definition column_line (width height columns i : Z) : list cairo_op :=
  let x := i * width / columns in
  [MoveTo x 0; LineTo x (height - 1); Stroke].

(** The horizontal line of [on_draw_grid] for row [i]. *)
Definition row_line (width height row_count i : Z) : list cairo_op :=
  let y := i * height / row_count in
  [MoveTo 0 y; LineTo (width - 1) y; Stroke].

(** [GridLock.on_draw_grid]: the calls it makes on the context, for the
    allocation of the drawing area. *)
Definition on_draw_grid (dargs : DrawArgs) (self : GridLock) (w : World)
  : list cairo_op :=
  let width := fst (allocation w) in
  let height := snd (allocation w) in
  [ SetSourceRgba (bg_color dargs);
    CairoRectangle 0 0 width height;
    CairoFill;
    SetSourceRgba (grid_color dargs);
    SetLineWidth (grid_thickness dargs);
    SetLineJoinRound ]
  ++ flat_map (column_line width height (cols self)) (py_range 1 (cols self))
  ++ flat_map (row_line width height (rows self)) (py_range 1 (rows self)).

(** The points at which [on_draw_grid] starts and ends its lines. *)
Definition line_points (ops : list cairo_op) : list (Z * Z) :=
  flat_map
    (fun op =>
       match op with
       | MoveTo x y => [(x, y)]
       | LineTo x y => [(x, y)]
       | _ => []
       end)
    ops.

(** The horizontal positions of the vertical lines, in drawing order. *)
Definition column_positions (width columns : Z) : list Z :=
  map (fun i => i * width / columns) (py_range 1 columns).

(** The vertical positions of the horizontal lines, in drawing order. *)
Definition row_positions (height row_count : Z) : list Z :=
  map (fun i => i * height / row_count) (py_range 1 row_count).

(** The largest magnitude below which every integer is a binary64. *)
Definition exact_bound : Z := 9007199254740992.

(** The product of a cell count and a cell size is a binary64 number
    (and the cell count one as well): for a finite cell size
    [m * 2 ^ e] the product has a mantissa [M] and an exponent [E] of
    the format. *)
Definition product_is_binary64 (n : Z) (cell : pyfloat) : Prop :=
  Z.abs n < exact_bound
  /\ match cell with
     | S754_finite _ m e =>
         n = 0
         \/ exists M E,
              bounded prec emax M E = true
              /\ e <= E
              /\ Z.abs n * Zpos m = Zpos M * 2 ^ (E - e)
     | _ => True
     end.

(** A float whose sign bit is clear, or a zero. *)
Definition sign_clear (f : pyfloat) : bool :=
  match f with
  | S754_zero _ => true
  | S754_infinity s => negb s
  | S754_finite s _ _ => negb s
  | S754_nan => false
  end.

(** The command line with another offset tuple. *)
Definition with_offset (user_offset : list Z) (args : Args) : Args :=
  mkArgs user_offset (gravity args) (live_preview args) (hide_cursor args).

(** A float that is not negative, or not a number. *)
Definition clear_or_nan (f : pyfloat) : Prop :=
  sign_clear f = true \/ f = S754_nan.

Definition is_stroke (op : cairo_op) : bool :=
  match op with
  | Stroke => true
  | _ => false
  end.

(** Calls that end with one geometry request followed by
    [Gtk.main_quit], with no request before it. *)
Definition committed (d : list call) : Prop :=
  exists before g m x y width height,
    d = before ++ [TargetSetGeometry g m x y width height; GtkMainQuit]
    /\ filter is_set_geometry before = [].

(** ** Evenly divided grids *)

(** The columns and rows divide the allocation into cells of
    [cell_width] by [cell_height] pixels; the allocation is a C [int]. *)
Definition even_grid (self : GridLock) (w : World) (cell_width cell_height : Z)
  : Prop :=
  0 < cols self /\ 0 < rows self /\ 0 < cell_width /\ 0 < cell_height
  /\ allocation w = (cols self * cell_width, rows self * cell_height)
  /\ cols self * cell_width < 2147483648
  /\ rows self * cell_height < 2147483648.

(** A fully set rectangle whose cell indices are below 2^20 in size. *)
Definition small_cells (r : Rect) : Prop :=
  exists xa ya xb yb,
    r = Rect_of xa ya xb yb
    /\ Z.abs xa < 1048576 /\ Z.abs ya < 1048576
    /\ Z.abs xb < 1048576 /\ Z.abs yb < 1048576.

(** The frame extents of the target, zero when the property is missing. *)
Definition extents_or_zero (w : World) : Z * Z * Z * Z :=
  match frame_extents w with
  | Some e => e
  | None => (0, 0, 0, 0)
  end.

(** The geometry request for the cursor rectangle in integer arithmetic:
    whole cells, moved by the origin of the grid window, the user offset
    and the frame extents. *)
Definition even_grid_request (args : Args) (self : GridLock) (w : World)
    (cell_width cell_height : Z) : option call :=
  match normalized (cursor_rect self), wnck_window self, offset args,
        extents_or_zero w with
  | Some (lx, ly, hx, hy), Some (grid_x, grid_y, _, _),
    ox :: oy :: ow :: oh :: _, (l, r, t, b) =>
      Some (TargetSetGeometry (gravity args) move_resize_mask
              (lx * cell_width + grid_x + ox - l)
              (ly * cell_height + grid_y + oy - t)
              ((1 + hx - lx) * cell_width + ow + (l + r))
              ((1 + hy - ly) * cell_height + oh + (t + b)))
  | _, _, _, _ => None
  end.

(** The defaults of the start-up code for the drawing handlers: grid
    colour (.0, .4, 1.0, .8), background (.0, .0, .0, .2), highlight
    (1.0, 1.0, 1.0, .3), lines 7 pixels thick. *)
Definition default_dargs : DrawArgs :=
  mkDrawArgs
    [S754_zero false; S754_finite false 7205759403792794 (-54); fone; S754_finite false 7205759403792794 (-53)]
    [S754_zero false; S754_zero false; S754_zero false; S754_finite false 7205759403792794 (-55)]
    [fone; fone; fone; S754_finite false 5404319552844595 (-54)]
    7.

(** ** Proof support *)

(** Case analysis on the two divisions of [cell_size] in state [s]; the
    goals in which a division raises come last. *)
Ltac case_cell_size s cw ch :=
  destruct (int_truediv (fst (allocation (env s))) (cols (obj s))) as [cw|?e];
  cbn [rbind];
  [ destruct (int_truediv (snd (allocation (env s))) (rows (obj s))) as [ch|?e];
    cbn [rbind] | ].

(** Closes a goal [obj_step g g'] in which [g'] is spelled out. *)
Ltac obj_step_done :=
  solve [ cbn [snd obj]; now constructor
        | cbn [cursor_rect set_cursor_rect]; now apply obj_drag_commit ].

(** ** Results about Rect *)

Lemma Rect_bool_true (r : Rect) :
  Rect_bool r = true ->
  exists xa ya xb yb, r = Rect_of xa ya xb yb.
Proof.
  destruct r as [[a|] [b|] [c|] [d|]]; cbn; try discriminate.
  intros _. now exists a, b, c, d.
Qed.

Lemma to_cairo_set (xa ya xb yb : Z) (sx sy : pyfloat) :
  to_cairo (Rect_of xa ya xb yb) sx sy =
  (a <- mul_int_float (Z.min xa xb) sx ;;
   b <- mul_int_float (Z.min ya yb) sy ;;
   c <- mul_int_float (1 + Z.max xa xb - Z.min xa xb) sx ;;
   d <- mul_int_float (1 + Z.max ya yb - Z.min ya yb) sy ;;
   px <- int_of_float a ;;
   py <- int_of_float b ;;
   pw <- int_of_float c ;;
   ph <- int_of_float d ;;
   Ok (px, py, pw, ph)).
Proof. reflexivity. Qed.

Lemma to_cairo_unset (r : Rect) (sx sy : pyfloat) :
  Rect_bool r = false -> to_cairo r sx sy = Raise TypeError.
Proof.
  destruct r as [[a|] [b|] [c|] [d|]]; cbn; try discriminate; reflexivity.
Qed.

(** C8: swapping the two corners of a fully set rectangle does not
    change what [to_cairo] returns. *)
Theorem to_cairo_swap_corners :
  forall (xa ya xb yb : Z) (cell_width cell_height : pyfloat),
    to_cairo (Rect_of xa ya xb yb) cell_width cell_height
    = to_cairo (Rect_of xb yb xa ya) cell_width cell_height.
Proof.
  intros. rewrite !to_cairo_set.
  now rewrite (Z.min_comm xa xb), (Z.min_comm ya yb),
    (Z.max_comm xa xb), (Z.max_comm ya yb).
Qed.

(** ** Multiplying by one is exact *)

Lemma digits_shift52 (m : positive) :
  Zdigits2 (Zpos (4503599627370496 * m)) = Zpos (digits2_pos m) + 52.
Proof. cbn [Pos.mul Zdigits2 digits2_pos]. lia. Qed.

Lemma shr_52 (m : positive) (e : Z) :
  shr (Build_shr_record (Zpos (4503599627370496 * m)) false false) e 52
  = (Build_shr_record (Zpos m) false false, e + 52).
Proof. cbn [Pos.mul]. reflexivity. Qed.

Lemma round_scaled (s : bool) (m : positive) (e : Z) :
  bounded prec emax m e = true ->
  binary_round_aux prec emax s (Zpos (4503599627370496 * m)) (-52 + e) loc_Exact
  = S754_finite s m e.
Proof.
  unfold bounded, canonical_mantissa. intros H.
  apply andb_true_iff in H. destruct H as [Hc Hb].
  apply Z.eqb_eq in Hc.
  unfold binary_round_aux, shr_fexp.
  rewrite digits_shift52.
  replace (Z.pos (digits2_pos m) + 52 + (-52 + e))
    with (Z.pos (digits2_pos m) + e) by lia.
  rewrite Hc.
  replace (e - (-52 + e)) with 52 by lia.
  cbn [shr_record_of_loc]. rewrite shr_52.
  cbn [shr_m loc_of_shr_record round_nearest_even Zdigits2].
  replace (-52 + e + 52) with e by lia.
  rewrite Hc, Z.sub_diag. cbn [shr shr_m].
  now rewrite Hb.
Qed.

Lemma fmul_one_l (f : pyfloat) :
  valid_binary prec emax f = true -> fmul fone f = f.
Proof.
  destruct f as [s|s| |s m e]; try reflexivity.
  intros H. cbn [valid_binary] in H.
  unfold fmul, fone, SFmul. cbn [xorb]. now apply round_scaled.
Qed.

Lemma mul_one_float (f : pyfloat) :
  valid_binary prec emax f = true -> mul_int_float 1 f = Ok f.
Proof.
  intros H. unfold mul_int_float.
  change (float_of_int 1) with (Ok fone). cbn [rbind].
  now rewrite fmul_one_l.
Qed.

(** ** Integers below 2^53 convert exactly *)

Lemma digits2_iter_xO (m d : positive) :
  Zpos (digits2_pos (Pos.iter xO m d)) = Zpos (digits2_pos m) + Zpos d.
Proof.
  induction d as [|d IH] using Pos.peano_ind.
  - cbn. lia.
  - rewrite Pos.iter_succ. cbn [digits2_pos]. lia.
Qed.

Lemma shiftl_iter_xO (m d : positive) :
  Z.shiftl (Zpos (Pos.iter xO m d)) (Zneg d) = Zpos m.
Proof.
  cbn [Z.shiftl].
  induction d as [|d IH] using Pos.peano_ind.
  - reflexivity.
  - rewrite !Pos.iter_succ. rewrite <- Pos.iter_swap.
    cbn [Z.div2]. exact IH.
Qed.

Lemma round_aux_exact (s : bool) (m : positive) (e : Z) :
  bounded prec emax m e = true ->
  binary_round_aux prec emax s (Zpos m) e loc_Exact = S754_finite s m e.
Proof.
  unfold bounded, canonical_mantissa. intros H.
  apply andb_true_iff in H. destruct H as [Hc Hb].
  apply Z.eqb_eq in Hc.
  unfold binary_round_aux, shr_fexp. cbn [Zdigits2].
  rewrite Hc, Z.sub_diag.
  cbn [shr shr_record_of_loc shr_m loc_of_shr_record round_nearest_even Zdigits2].
  rewrite Hc, Z.sub_diag. cbn [shr shr_m]. now rewrite Hb.
Qed.

(** A mantissa of at most 53 bits is only shifted left by the rounding. *)
Lemma binary_round_small (s : bool) (m : positive) :
  Zpos (digits2_pos m) <= 53 ->
  exists mz ez,
    binary_round prec emax s m 0 = S754_finite s mz ez
    /\ bounded prec emax mz ez = true
    /\ Z.shiftl (Zpos mz) ez = Zpos m.
Proof.
  intros Hd. unfold binary_round.
  assert (Hf : fexp prec emax (Zpos (digits2_pos m) + 0)
               = Zpos (digits2_pos m) - 53).
  { unfold fexp, emin, prec, emax. lia. }
  rewrite Hf. unfold shl_align.
  destruct (Zpos (digits2_pos m) - 53 - 0) as [|d|d] eqn:Hs; try lia.
  - assert (Hb : bounded prec emax m 0 = true).
    { unfold bounded, canonical_mantissa.
      apply andb_true_iff. split; [apply Z.eqb_eq|reflexivity].
      unfold fexp, emin, prec, emax. lia. }
    exists m, 0. split; [now apply round_aux_exact|]. now split.
  - assert (He : Zpos (digits2_pos m) - 53 = Zneg d) by lia.
    rewrite He.
    assert (Hb : bounded prec emax (Pos.iter xO m d) (Zneg d) = true).
    { unfold bounded, canonical_mantissa.
      apply andb_true_iff.
      split; [apply Z.eqb_eq|apply Z.leb_le; unfold emax, prec; lia].
      rewrite digits2_iter_xO. unfold fexp, emin, prec, emax. lia. }
    exists (Pos.iter xO m d), (Zneg d).
    split; [now apply round_aux_exact|]. split; [exact Hb|apply shiftl_iter_xO].
Qed.

Lemma digits2_bound (m : positive) :
  Zpos m < 2 ^ 53 -> Zpos (digits2_pos m) <= 53.
Proof.
  intros H.
  assert (Hg : forall p, 2 ^ (Zpos (digits2_pos p) - 1) <= Zpos p).
  { induction p as [p IH|p IH|]; cbn [digits2_pos].
    - rewrite Pos2Z.inj_succ.
      replace (Z.succ (Zpos (digits2_pos p)) - 1)
        with (Z.succ (Zpos (digits2_pos p) - 1)) by lia.
      rewrite Z.pow_succ_r by lia. lia.
    - rewrite Pos2Z.inj_succ.
      replace (Z.succ (Zpos (digits2_pos p)) - 1)
        with (Z.succ (Zpos (digits2_pos p) - 1)) by lia.
      rewrite Z.pow_succ_r by lia. lia.
    - cbn. lia. }
  specialize (Hg m).
  destruct (Z.le_gt_cases (Zpos (digits2_pos m)) 53) as [Hle|Hgt]; [exact Hle|].
  exfalso.
  assert (2 ^ 53 <= 2 ^ (Zpos (digits2_pos m) - 1))
    by (apply Z.pow_le_mono_r; lia).
  lia.
Qed.

(** A float literal with an integer value below 2^53 is a binary64 value
    and converts back to that integer. *)
Lemma float_lit_exact (n : Z) :
  Z.abs n < 2 ^ 53 ->
  valid_binary prec emax (float_lit n) = true
  /\ int_of_float (float_lit n) = Ok n.
Proof.
  intros Hn. unfold float_lit, binary_normalize.
  destruct n as [|m|m]; [split; reflexivity| |].
  - destruct (binary_round_small false m) as (mz & ez & -> & Hb & Hs).
    { apply digits2_bound. exact Hn. }
    cbn [int_of_float valid_binary]. rewrite Hs.
    split; [exact Hb|reflexivity].
  - destruct (binary_round_small true m) as (mz & ez & -> & Hb & Hs).
    { apply digits2_bound. exact Hn. }
    cbn [int_of_float valid_binary]. rewrite Hs.
    split; [exact Hb|reflexivity].
Qed.

(** ** The world under calls *)

Lemma apply_calls_app (cs ds : list call) (w : World) :
  apply_calls (cs ++ ds) w = apply_calls ds (apply_calls cs w).
Proof. unfold apply_calls. apply fold_left_app. Qed.

Lemma calls_apply_calls (cs : list call) (w : World) :
  calls (apply_calls cs w) = calls w ++ cs.
Proof.
  revert w. induction cs as [|c cs IH]; intros w.
  - cbn. now rewrite app_nil_r.
  - change (apply_calls (c :: cs) w) with (apply_calls cs (apply_call c w)).
    rewrite IH. cbn [apply_call calls]. now rewrite <- app_assoc.
Qed.


Lemma is_maximized_unmaximized (w : World) :
  is_maximized (unmaximized w) = false.
Proof.
  unfold unmaximized. destruct (is_maximized w) eqn:E; [reflexivity | exact E].
Qed.

Lemma unmaximized_reads (w : World) :
  allocation (unmaximized w) = allocation w
  /\ frame_extents (unmaximized w) = frame_extents w.
Proof. unfold unmaximized. now destruct (is_maximized w). Qed.

Lemma compute_target_geometry_unmaximized (args : Args) (g : GridLock) (w : World) :
  compute_target_geometry args g (unmaximized w) = compute_target_geometry args g w.
Proof.
  unfold compute_target_geometry.
  destruct (unmaximized_reads w) as [-> ->]. reflexivity.
Qed.

(** ** The mapper, step by step *)

(** What [set_target_geometry_from_cursor] does to a state: unmaximize a
    maximized target, compute, and either request the geometry, when its
    four numbers are C [int]s, or leave with the exception of the
    computation or of the call. *)
Lemma set_target_geometry_from_cursor_run (args : Args) (s : State) :
  set_target_geometry_from_cursor args s =
  match compute_target_geometry args (obj s) (env s) with
  | Ok [x; y; width; height] =>
      if fits_c_ints x y width height then
        (Ok tt,
         mkState (obj s)
           (apply_call
              (TargetSetGeometry (gravity args) move_resize_mask x y width height)
              (unmaximized (env s))))
      else (Raise OverflowError, mkState (obj s) (unmaximized (env s)))
  | Ok _ => (Raise TypeError, mkState (obj s) (unmaximized (env s)))
  | Raise e => (Raise e, mkState (obj s) (unmaximized (env s)))
  end.
Proof.
  rewrite <- (compute_target_geometry_unmaximized args (obj s) (env s)).
  destruct s as [g w].
  unfold set_target_geometry_from_cursor, target_is_maximized.
  unfold bind at 1. cbn [obj env].
  assert (Hb : when (is_maximized w) (do_call TargetUnmaximize) (mkState g w)
               = (Ok tt, mkState g (unmaximized w))).
  { unfold when, unmaximized, do_call, ret.
    now destruct (is_maximized w). }
  unfold bind at 1. rewrite Hb.
  generalize (unmaximized w) as w1. intros w1.
  unfold compute_target_geometry, cell_size, grid_get_allocation, get_self,
    lift, ret, wnck_window_get_geometry, get_gtk_frame_offset, bind.
  cbn [obj env].
  destruct (int_truediv (fst (allocation w1)) (cols g)) as [cw|e];
    cbn [rbind obj env fst snd]; [|reflexivity].
  destruct (int_truediv (snd (allocation w1)) (rows g)) as [ch|e];
    cbn [rbind obj env fst snd]; [|reflexivity].
  destruct (to_cairo (cursor_rect g) cw ch) as [[[[x y] wd] ht]|e];
    cbn [rbind obj env fst snd]; [|reflexivity].
  destruct (wnck_window g) as [[[[gx gy] gw] gh]|];
    cbn [rbind obj env fst snd]; [|reflexivity].
  unfold set_raw_target_geometry_star, set_raw_target_geometry, do_call, lift.
  destruct (add_offsets _ (gtk_frame_offset (frame_extents w1)))
    as [|a [|b [|c [|d [|e l]]]]]; try reflexivity.
  now destruct (fits_c_ints a b c d).
Qed.

(** ** The worked example *)

(** On a content area of 800 by 400 the cells of a 4 by 2 grid are 200 by
    200, so the drag from cell (1, 0) to cell (2, 1) asks for a height of
    400 and not for the (200, 0, 400, 200) of the example. *)
Lemma worked_example_800_400_not_as_stated :
  cursor_rect (obj (WorkedExample.session [0; 0; 0; 0] (800, 400) (250, 50) (450, 250)))
  = Rect_of 1 0 2 1
  /\ ~ In (200, 0, 400, 200)
       (WorkedExample.requests
          (WorkedExample.session [0; 0; 0; 0] (800, 400) (250, 50) (450, 250))).
Proof.
  split; [vm_compute; reflexivity|].
  vm_compute. intros [H|[]]. discriminate H.
Qed.

(** C1, amended: for a grid of 4 columns and 2 rows, anchor cell (1, 0),
    second corner (2, 1), grid origin (0, 0) and no frame extents, the one
    geometry request of the session is (200, 0, 400, 400) over a content
    area of 800 by 400 (cells of 200 by 200), and (205, -3, 400, 410) with
    the user offset (5, -3, 0, 10); it is (200, 0, 400, 200), and
    (205, -3, 400, 210) with that offset, when the cells are 200 by 100,
    that is over a content area of 800 by 200. *)
Theorem worked_example_requests :
  let run := WorkedExample.session in
  (cursor_rect (obj (run [0; 0; 0; 0] (800, 400) (250, 50) (450, 250)))
     = Rect_of 1 0 2 1
   /\ WorkedExample.requests (run [0; 0; 0; 0] (800, 400) (250, 50) (450, 250))
     = [(200, 0, 400, 400)]
   /\ WorkedExample.requests (run [5; -3; 0; 10] (800, 400) (250, 50) (450, 250))
     = [(205, -3, 400, 410)])
  /\ (cursor_rect (obj (run [0; 0; 0; 0] (800, 200) (250, 50) (450, 150)))
        = Rect_of 1 0 2 1
      /\ int_truediv 800 4 = Ok (float_lit 200)
      /\ int_truediv 200 2 = Ok (float_lit 100)
      /\ WorkedExample.requests (run [0; 0; 0; 0] (800, 200) (250, 50) (450, 150))
        = [(200, 0, 400, 200)]
      /\ WorkedExample.requests (run [5; -3; 0; 10] (800, 200) (250, 50) (450, 150))
        = [(205, -3, 400, 210)]).
Proof.
  cbv zeta. repeat split; vm_compute; reflexivity.
Qed.

(** ** A selection of one cell *)

(** With 16 columns over 1366 pixels a cell is 85.375 pixels wide; the
    box of one cell is then 85 pixels wide, which is not the cell width. *)
Lemma single_cell_width_is_truncated :
  int_truediv 1366 16 = Ok (S754_finite false 6007731534168064 (-46))
  /\ to_cairo (Rect_of 3 3 3 3)
       (S754_finite false 6007731534168064 (-46)) (float_lit 100)
     = Ok (256, 300, 85, 100)
  /\ float_of_int 85 <> Ok (S754_finite false 6007731534168064 (-46)).
Proof.
  repeat split; try (vm_compute; reflexivity).
  vm_compute. discriminate.
Qed.

(** The extent of a rectangle of one cell is one, on both axes. *)
Lemma to_cairo_one_cell (x y : Z) (sx sy : pyfloat) :
  to_cairo (Rect_of x y x y) sx sy =
  (a <- mul_int_float x sx ;;
   b <- mul_int_float y sy ;;
   c <- mul_int_float 1 sx ;;
   d <- mul_int_float 1 sy ;;
   px <- int_of_float a ;;
   py <- int_of_float b ;;
   pw <- int_of_float c ;;
   ph <- int_of_float d ;;
   Ok (px, py, pw, ph)).
Proof.
  rewrite to_cairo_set, !Z.min_id, !Z.max_id.
  replace (1 + x - x) with 1 by lia.
  replace (1 + y - y) with 1 by lia.
  reflexivity.
Qed.

(** When the cell sizes are integers [w] and [h] (below 2^53), the box of
    one cell is exactly [w] wide and [h] high. *)
Lemma to_cairo_one_cell_integral (x y w h px py pw ph : Z) :
  Z.abs w < 2 ^ 53 ->
  Z.abs h < 2 ^ 53 ->
  to_cairo (Rect_of x y x y) (float_lit w) (float_lit h) = Ok (px, py, pw, ph) ->
  pw = w /\ ph = h.
Proof.
  intros Hw Hh. rewrite to_cairo_one_cell.
  destruct (float_lit_exact w Hw) as [Vw Iw].
  destruct (float_lit_exact h Hh) as [Vh Ih].
  rewrite (mul_one_float _ Vw), (mul_one_float _ Vh).
  destruct (mul_int_float x (float_lit w)) as [a|]; [|discriminate].
  destruct (mul_int_float y (float_lit h)) as [b|]; [|discriminate].
  cbn [rbind]. rewrite Iw, Ih.
  destruct (int_of_float a); [|discriminate].
  destruct (int_of_float b); [|discriminate].
  cbn [rbind]. intros H. injection H as _ _ <- <-. now split.
Qed.

(** C9, amended: for a rectangle with [x1 = x2] and [y1 = y2] and any two
    binary64 cell sizes, the width and height [to_cairo] returns are the
    cell width and the cell height truncated to integers, [int(cell_width)]
    and [int(cell_height)]; the box is returned exactly when these two
    conversions and the two of the scaled corner succeed. *)
Theorem to_cairo_single_cell :
  forall (x y : Z) (cell_width cell_height : pyfloat),
    valid_binary prec emax cell_width = true ->
    valid_binary prec emax cell_height = true ->
    to_cairo (Rect_of x y x y) cell_width cell_height =
    (a <- mul_int_float x cell_width ;;
     b <- mul_int_float y cell_height ;;
     px <- int_of_float a ;;
     py <- int_of_float b ;;
     pw <- int_of_float cell_width ;;
     ph <- int_of_float cell_height ;;
     Ok (px, py, pw, ph)).
Proof.
  intros x y cw ch Hw Hh. rewrite to_cairo_one_cell.
  rewrite (mul_one_float cw Hw), (mul_one_float ch Hh).
  destruct (mul_int_float x cw) as [a|]; [|reflexivity].
  destruct (mul_int_float y ch) as [b|]; reflexivity.
Qed.

Lemma to_cairo_single_cell_witness :
  valid_binary prec emax (S754_finite false 6007731534168064 (-46)) = true
  /\ valid_binary prec emax (float_lit 100) = true
  /\ to_cairo (Rect_of 3 3 3 3)
       (S754_finite false 6007731534168064 (-46)) (float_lit 100)
     = (a <- mul_int_float 3 (S754_finite false 6007731534168064 (-46)) ;;
        b <- mul_int_float 3 (float_lit 100) ;;
        px <- int_of_float a ;;
        py <- int_of_float b ;;
        pw <- int_of_float (S754_finite false 6007731534168064 (-46)) ;;
        ph <- int_of_float (float_lit 100) ;;
        Ok (px, py, pw, ph)).
Proof.
  split; [reflexivity|]. split; [reflexivity|].
  apply to_cairo_single_cell; reflexivity.
Defined.

(** ** The mapper and the user offset *)

(** The start-up code leaves an offset of at least four components. *)
Lemma offset_of_length (given : option (list Z)) :
  (4 <= length (offset_of given))%nat.
Proof.
  destruct given as [parsed|]; cbn [offset_of]; [|cbn; lia].
  unfold pad_offset. rewrite length_app, repeat_length. lia.
Qed.







Lemma set_target_geometry_keeps_obj (args : Args) (s : State) :
  obj (snd (set_target_geometry_from_cursor args s)) = obj s.
Proof.
  rewrite set_target_geometry_from_cursor_run.
  destruct (compute_target_geometry args (obj s) (env s))
    as [[|x [|y [|wd [|ht [|z l]]]]]|e]; try reflexivity.
  now destruct (fits_c_ints x y wd ht).
Qed.

(** ** The mapper and a maximized target *)

Lemma apply_unmaximize_calls (w : World) :
  apply_calls (unmaximize_calls w) w = unmaximized w.
Proof. unfold unmaximize_calls, unmaximized. now destruct (is_maximized w). Qed.

(** The world the mapper leaves: the calls that unmaximize, then the
    request if there is one. *)
Lemma set_target_geometry_world (args : Args) (s : State) :
  exists request : list call,
    env (snd (set_target_geometry_from_cursor args s))
    = apply_calls (unmaximize_calls (env s) ++ request) (env s)
    /\ match fst (set_target_geometry_from_cursor args s) with
       | Ok _ =>
           exists x y width height,
             request = [TargetSetGeometry (gravity args) move_resize_mask
                          x y width height]
       | Raise _ => request = []
       end.
Proof.
  rewrite set_target_geometry_from_cursor_run.
  destruct (compute_target_geometry args (obj s) (env s))
    as [[|x [|y [|wd [|ht [|z l]]]]]|e]; cbn [fst snd obj env];
    try (exists []; rewrite app_nil_r, apply_unmaximize_calls; now split).
  destruct (fits_c_ints x y wd ht); cbn [fst snd obj env];
    [|exists []; rewrite app_nil_r, apply_unmaximize_calls; now split].
  exists [TargetSetGeometry (gravity args) move_resize_mask x y wd ht].
  rewrite apply_calls_app, apply_unmaximize_calls.
  split; [reflexivity|]. now exists x, y, wd, ht.
Qed.

(** C10: [set_target_geometry_from_cursor] first asks whether the target
    is maximized and unmaximizes it if so; only then does it compute and
    make its one [set_geometry] call, or raise without any.  The target
    is not maximized in the world in which the request is made. *)
Theorem set_target_geometry_unmaximizes_first :
  forall (args : Args) (s : State),
    let unmax := if is_maximized (env s) then [TargetUnmaximize] else [] in
    let out := set_target_geometry_from_cursor args s in
    exists request : list call,
      obj (snd out) = obj s
      /\ env (snd out) = apply_calls (unmax ++ request) (env s)
      /\ calls (env (snd out)) = calls (env s) ++ unmax ++ request
      /\ match fst out with
         | Ok _ =>
             exists x y width height,
               request = [TargetSetGeometry (gravity args) move_resize_mask
                            x y width height]
         | Raise _ => request = []
         end
      /\ is_maximized (apply_calls unmax (env s)) = false.
Proof.
  intros args s unmax out.
  destruct (set_target_geometry_world args s) as (request & Henv & Hreq).
  exists request. fold out in Henv, Hreq.
  change unmax with (unmaximize_calls (env s)).
  split; [apply set_target_geometry_keeps_obj|].
  split; [exact Henv|].
  split; [now rewrite Henv, calls_apply_calls|].
  split; [exact Hreq|].
  rewrite apply_unmaximize_calls. apply is_maximized_unmaximized.
Qed.

(** ** Cancelling *)

(** The geometry read from the target is one it takes back. *)
Lemma c_ints_fit (x y width height : c_int) :
  fits_c_ints x y width height = true.
Proof.
  unfold fits_c_ints.
  now rewrite (c_int_fits x), (c_int_fits y), (c_int_fits width),
    (c_int_fits height).
Qed.

Lemma restore_target_geometry_run (args : Args) (s : State) :
  restore_target_geometry args s =
  (Ok tt,
   mkState (obj s)
     (apply_calls
        (restore_calls args (target_orig_geometry (obj s))
           (target_orig_maximized_vert (obj s))
           (target_orig_maximized_horiz (obj s))
           (target_orig_maximized (obj s)))
        (env s))).
Proof.
  destruct s as [g w].
  unfold restore_target_geometry, restore_calls, get_self, bind,
    set_raw_target_geometry, do_call, when, ret.
  cbn [obj env].
  destruct (target_orig_geometry g) as [[[x y] wd] ht].
  rewrite (c_ints_fit x y wd ht).
  destruct (target_orig_maximized_vert g), (target_orig_maximized_horiz g),
    (target_orig_maximized g); reflexivity.
Qed.

(** The cancel branch shared by [on_key_press] and [on_mouse_press]. *)
Lemma cancel_run (args : Args) (s : State) :
  (when (live_preview args) (restore_target_geometry args) ;;;
   do_call GtkMainQuit ;;;
   ret ReturnTrue) s =
  (Ok ReturnTrue,
   mkState (obj s)
     (apply_calls
        ((if live_preview args
          then restore_calls args (target_orig_geometry (obj s))
                 (target_orig_maximized_vert (obj s))
                 (target_orig_maximized_horiz (obj s))
                 (target_orig_maximized (obj s))
          else []) ++ [GtkMainQuit])
        (env s))).
Proof.
  unfold bind at 1. unfold when.
  destruct (live_preview args).
  - rewrite restore_target_geometry_run. rewrite apply_calls_app. reflexivity.
  - destruct s; reflexivity.
Qed.

Lemma main_quit_after (cs : list call) (w : World) :
  main_quit (apply_calls (cs ++ [GtkMainQuit]) w) = true.
Proof. now rewrite apply_calls_app. Qed.

(** With live preview a press of the third button on a fresh session
    does call [set_geometry], with the original geometry. *)
Lemma non_primary_press_calls_setter :
  In (TargetSetGeometry 0 move_resize_mask 10 20 300 200)
     (calls (env (snd (on_mouse_press (mkArgs [0; 0; 0; 0] 0 true false) 3
                         (GridLock_init (4, 2)
                            (WorkedExample.desktop (800, 400))))))).
Proof. vm_compute. left. reflexivity. Qed.

(** C4, amended: a press of any button but the first ends the session
    without running the coordinate mapper and leaves the object as it is.
    Without live preview no call but [Gtk.main_quit] is made; with live
    preview [set_geometry] is called once, with the original geometry,
    followed by the maximize calls of the original flags. *)
Theorem non_primary_press_cancels :
  forall (args : Args) (s : State) (button : Z),
    button <> 1 ->
    let out := on_mouse_press args button s in
    fst out = Ok ReturnTrue
    /\ obj (snd out) = obj s
    /\ main_quit (env (snd out)) = true
    /\ calls (env (snd out))
       = calls (env s)
         ++ (if live_preview args
             then restore_calls args (target_orig_geometry (obj s))
                    (target_orig_maximized_vert (obj s))
                    (target_orig_maximized_horiz (obj s))
                    (target_orig_maximized (obj s))
             else [])
         ++ [GtkMainQuit].
Proof.
  intros args s button Hb out. subst out.
  unfold on_mouse_press.
  destruct (button =? 1) eqn:E; [apply Z.eqb_eq in E; contradiction|].
  rewrite cancel_run. cbn [fst snd obj env].
  repeat split.
  - apply main_quit_after.
  - now rewrite calls_apply_calls.
Qed.

Lemma non_primary_press_cancels_witness :
  let args := mkArgs [0; 0; 0; 0] 0 true false in
  let s := GridLock_init (4, 2) (WorkedExample.desktop (800, 400)) in
  3 <> 1
  /\ calls (env (snd (on_mouse_press args 3 s)))
     = calls (env s)
       ++ (if live_preview args
           then restore_calls args (target_orig_geometry (obj s))
                  (target_orig_maximized_vert (obj s))
                  (target_orig_maximized_horiz (obj s))
                  (target_orig_maximized (obj s))
           else [])
       ++ [GtkMainQuit].
Proof.
  intros args s.
  assert (H : 3 <> 1) by lia.
  split; [exact H|].
  apply (non_primary_press_cancels args s 3 H).
Defined.

(** ** What a handler can do to the object *)

Lemma cell_size_run (s : State) :
  cell_size s =
  (cell_width <- int_truediv (fst (allocation (env s))) (cols (obj s)) ;;
   cell_height <- int_truediv (snd (allocation (env s))) (rows (obj s)) ;;
   Ok (cell_width, cell_height),
   s).
Proof.
  unfold cell_size, grid_get_allocation, get_self, lift, ret, bind.
  destruct (int_truediv (fst (allocation (env s))) (cols (obj s))); [|reflexivity].
  destruct (int_truediv (snd (allocation (env s))) (rows (obj s))); reflexivity.
Qed.

Lemma live_preview_step_run (args : Args) (s : State) :
  live_preview_step args s =
  let w1 := apply_calls
              (if hide_cursor args then [CursorSetVisible false] else [])
              (env s) in
  match last_cursor_rect (obj s) with
  | None => (Raise AttributeError, mkState (obj s) w1)
  | Some last =>
      if Rect_eq last (cursor_rect (obj s))
      then (Ok tt, mkState (obj s) w1)
      else set_target_geometry_from_cursor args
             (mkState
                (set_last_cursor_rect (Rect_copy (cursor_rect (obj s))) (obj s))
                w1)
  end.
Proof.
  destruct s as [g w].
  unfold live_preview_step, get_last_cursor_rect, get_self, when, do_call,
    update_self, ret.
  unfold bind at 1.
  destruct (hide_cursor args); cbn [obj env apply_calls fold_left];
    unfold bind at 1; cbn [obj env];
    (destruct (last_cursor_rect g) as [l|]; [|reflexivity]);
    unfold bind at 1; cbn [obj env];
    (destruct (Rect_eq l (cursor_rect g)); [reflexivity|]);
    cbn [negb]; unfold bind at 1; reflexivity.
Qed.

Lemma Rect_copy_id (r : Rect) : Rect_copy r = r.
Proof. now destruct r. Qed.

Lemma on_mouse_move_run (args : Args) (x y : pyfloat) (s : State) :
  on_mouse_move args x y s =
  match int_truediv (fst (allocation (env s))) (cols (obj s)),
        int_truediv (snd (allocation (env s))) (rows (obj s)) with
  | Raise e, _ => (Raise e, s)
  | Ok _, Raise e => (Raise e, s)
  | Ok cell_width, Ok cell_height =>
      match cell_index x cell_width with
      | Raise e => (Raise e, s)
      | Ok vx =>
          if drag (obj s) then
            let r1 := set_x2 vx (cursor_rect (obj s)) in
            match cell_index y cell_height with
            | Raise e => (Raise e, mkState (set_cursor_rect r1 (obj s)) (env s))
            | Ok vy =>
                let s2 := mkState
                            (set_cursor_rect
                               (dragged_to vx vy (cursor_rect (obj s))) (obj s))
                            (env s) in
                queue_draw_after
                  (if live_preview args then live_preview_step args s2
                   else (Ok tt, s2))
            end
          else
            let r1 := set_x2 vx (set_x1 vx (cursor_rect (obj s))) in
            match cell_index y cell_height with
            | Raise e => (Raise e, mkState (set_cursor_rect r1 (obj s)) (env s))
            | Ok vy =>
                queue_draw_after
                  (Ok tt,
                   mkState
                     (set_cursor_rect
                        (moved_to vx vy (cursor_rect (obj s))) (obj s))
                     (env s))
            end
      end
  end.
Proof.
  unfold on_mouse_move. unfold bind at 1. rewrite cell_size_run.
  case_cell_size s cw ch; try reflexivity.
  destruct s as [g w].
  unfold get_self, assign_cursor, update_self, lift, when, ret, do_call.
  unfold bind at 1. cbn [obj env fst snd].
  unfold bind at 1.
  destruct (drag g).
  - unfold bind at 1.
    destruct (cell_index x cw) as [vx|e]; [|reflexivity].
    unfold bind at 1. unfold bind at 1.
    destruct (cell_index y ch) as [vy|e]; [|reflexivity].
    unfold bind at 1. cbn [obj env cursor_rect set_cursor_rect].
    unfold queue_draw_after, dragged_to.
    destruct (live_preview args).
    + destruct (live_preview_step args _) as [[u|e] s1]; reflexivity.
    + reflexivity.
  - unfold bind at 1.
    destruct (cell_index x cw) as [vx|e]; [|reflexivity].
    unfold bind at 1. unfold bind at 1. unfold bind at 1.
    destruct (cell_index y ch) as [vy|e]; [|reflexivity].
    reflexivity.
Qed.

Lemma queue_draw_after_obj (out : result unit * State) :
  obj (snd (queue_draw_after out)) = obj (snd out).
Proof. now destruct out as [[u|e] s1]. Qed.

Section Session.

(** The command line of the session. *)
Variable args : Args.

Lemma on_mouse_move_obj_step (x y : pyfloat) (s : State) :
  obj_step (obj s) (obj (snd (on_mouse_move args x y s))).
Proof.
  rewrite on_mouse_move_run.
  case_cell_size s cw ch; try obj_step_done.
  destruct (cell_index x cw) as [vx|e]; [|obj_step_done].
  destruct (drag (obj s)) eqn:Hd; cbv zeta;
    (destruct (cell_index y ch) as [vy|e]; [|obj_step_done]);
    rewrite queue_draw_after_obj.
  - destruct (live_preview args); [|obj_step_done].
    rewrite live_preview_step_run. cbv zeta. cbn [obj env].
    destruct (last_cursor_rect _) as [l|]; [|obj_step_done].
    destruct (Rect_eq l _); [obj_step_done|].
    rewrite set_target_geometry_keeps_obj. cbn [obj].
    rewrite Rect_copy_id. obj_step_done.
  - obj_step_done.
Qed.

Lemma on_draw_cursor_obj (s : State) :
  obj (snd (on_draw_cursor s)) = obj s.
Proof.
  unfold on_draw_cursor. unfold bind at 1. rewrite cell_size_run.
  case_cell_size s cw ch; try reflexivity.
  destruct s as [g w]. unfold get_self, when, lift, do_call, ret, bind.
  cbn [obj env fst snd].
  destruct (Rect_bool (cursor_rect g)); [|reflexivity].
  destruct (to_cairo (cursor_rect g) cw ch) as [[[[x y] wd] ht]|e]; reflexivity.
Qed.

Lemma dispatch_obj_step (e : event) (s : State) :
  obj_step (obj s) (obj (snd (dispatch args e s))).
Proof.
  destruct e as [keyval|button|button|x y|found|]; cbn [dispatch].
  - unfold on_key_press.
    destruct ((keyval =? KEY_q) || (keyval =? KEY_Escape)).
    + rewrite cancel_run. constructor.
    + constructor.
  - unfold on_mouse_press. destruct (button =? 1).
    + destruct s as [g w]. apply obj_press.
    + rewrite cancel_run. constructor.
  - unfold on_mouse_release. destruct (button =? 1); [|constructor].
    destruct s as [g w]. unfold update_self, do_call, ret.
    unfold bind at 1. cbn [obj env]. unfold bind at 1.
    pose proof (set_target_geometry_keeps_obj args (mkState (set_drag false g) w))
      as Hk.
    destruct (set_target_geometry_from_cursor args (mkState (set_drag false g) w))
      as [[u|x] s1]; cbn [snd obj] in *; unfold bind; cbn [snd obj];
      rewrite Hk; apply obj_release.
  - apply on_mouse_move_obj_step.
  - unfold on_draw_window, get_self, when, update_self, ret, bind.
    destruct s as [g w]. cbn [obj env].
    destruct (wnck_window g); cbn [snd obj]; constructor.
  - rewrite on_draw_cursor_obj. constructor.
Qed.

Lemma step_obj (e : event) (s : State) :
  obj (step args e s) = obj (snd (dispatch args e s)).
Proof. unfold step. now destruct (dispatch args e s) as [[a|x] s1]. Qed.

(** Whatever holds of a fresh object and survives every handler holds in
    every state the main loop reaches. *)
Lemma Gtk_main_invariant (P : GridLock -> Prop) :
  (forall g g', obj_step g g' -> P g -> P g') ->
  forall (events : list event) (s : State),
    P (obj s) -> P (obj (Gtk_main args events s)).
Proof.
  intros Hstep events. induction events as [|e rest IH]; intros s HP.
  - exact HP.
  - cbn [Gtk_main]. destruct (main_quit (env s)); [exact HP|].
    apply IH. rewrite step_obj.
    exact (Hstep _ _ (dispatch_obj_step e s) HP).
Qed.

Lemma obj_step_snapshot (g g' : GridLock) :
  obj_step g g' -> snapshot g' = snapshot g.
Proof. intros H. destruct H; reflexivity. Qed.


Lemma reachable_snapshot (grid : Z * Z) (w : World) (events : list event) :
  snapshot (obj (Gtk_main args events (GridLock_init grid w)))
  = (target_geometry w, target_maximized_vert w, target_maximized_horiz w,
     is_maximized w).
Proof.
  apply (Gtk_main_invariant
           (fun g => snapshot g
                     = (target_geometry w, target_maximized_vert w,
                        target_maximized_horiz w, is_maximized w))).
  - intros g g' Hs Hg. now rewrite (obj_step_snapshot g g' Hs).
  - reflexivity.
Qed.


End Session.

(** ** Cancelling a session *)

(** C5: in every state a session reaches, a cancel (the key [Escape] or
    [q], or a press of a button other than the first) with live preview
    calls [set_geometry] with exactly the geometry the target had when the
    session started, then re-applies the maximize flags that were true
    then, in the order vertically, horizontally, maximized, and quits the
    main loop; without live preview it only quits. *)
Theorem cancel_restores_original_geometry :
  forall (args : Args) (grid : Z * Z) (w : World) (events : list event)
         (e : event),
    is_cancel e = true ->
    let s := Gtk_main args events (GridLock_init grid w) in
    let out := dispatch args e s in
    let '(x, y, width, height) := target_geometry w in
    fst out = Ok ReturnTrue
    /\ obj (snd out) = obj s
    /\ main_quit (env (snd out)) = true
    /\ calls (env (snd out))
       = calls (env s)
         ++ (if live_preview args
             then [TargetSetGeometry (gravity args) move_resize_mask
                     x y width height]
                  ++ (if target_maximized_vert w
                      then [TargetMaximizeVertically] else [])
                  ++ (if target_maximized_horiz w
                      then [TargetMaximizeHorizontally] else [])
                  ++ (if is_maximized w then [TargetMaximize] else [])
             else [])
         ++ [GtkMainQuit].
Proof.
  intros args grid w events e He s out.
  assert (Hout : out = (when (live_preview args) (restore_target_geometry args) ;;;
                        do_call GtkMainQuit ;;; ret ReturnTrue) s).
  { subst out. destruct e as [keyval|button|button|px py|found|];
      cbn [is_cancel] in He; try discriminate; cbn [dispatch].
    - unfold on_key_press. now rewrite He.
    - unfold on_mouse_press. apply negb_true_iff in He. now rewrite He. }
  rewrite Hout, cancel_run. cbn [fst snd obj env].
  pose proof (reachable_snapshot args grid w events) as Hs.
  fold s in Hs. unfold snapshot in Hs.
  injection Hs as Hg Hv Hh Hm.
  rewrite Hg, Hv, Hh, Hm. unfold restore_calls.
  destruct (target_geometry w) as [[[x y] wd] ht].
  split; [reflexivity|]. split; [reflexivity|].
  split; [apply main_quit_after|].
  now rewrite calls_apply_calls.
Qed.

Lemma cancel_restores_original_geometry_witness :
  let args := mkArgs [0; 0; 0; 0] 0 true false in
  let w := fresh_world WorkedExample.target_at_10_20 true false None
             (800, 400) in
  let events := [MotionNotify (float_lit 250) (float_lit 50); ButtonPress 1] in
  let e := KeyPress KEY_Escape in
  is_cancel e = true
  /\ (let s := Gtk_main args events (GridLock_init (4, 2) w) in
      let out := dispatch args e s in
      let '(x, y, width, height) := target_geometry w in
      fst out = Ok ReturnTrue
      /\ obj (snd out) = obj s
      /\ main_quit (env (snd out)) = true
      /\ calls (env (snd out))
         = calls (env s)
           ++ (if live_preview args
               then [TargetSetGeometry (gravity args) move_resize_mask
                       x y width height]
                    ++ (if target_maximized_vert w
                        then [TargetMaximizeVertically] else [])
                    ++ (if target_maximized_horiz w
                        then [TargetMaximizeHorizontally] else [])
                    ++ (if is_maximized w then [TargetMaximize] else [])
               else [])
           ++ [GtkMainQuit]).
Proof.
  intros args w events e.
  split; [reflexivity|].
  apply (cancel_restores_original_geometry args (4, 2) w events e).
  reflexivity.
Defined.

(** ** Live preview *)









(** ** A click without a pointer move *)

(** C3 fails on the code: when the first button is pressed and released
    before any pointer move, [on_mouse_press] has left the cursor
    rectangle as [__init__] made it, with no field set, and
    [on_mouse_release] runs the mapper on it.  The [min] of [to_cairo]
    raises [TypeError]; no geometry is requested and the main loop is not
    quit.  In the same state [on_draw_cursor], which tests the rectangle
    first, returns. *)
Theorem click_without_move_maps_unset_rect :
  let args := WorkedExample.args_of [0; 0; 0; 0] in
  let fresh := GridLock_init (4, 2) (WorkedExample.desktop (800, 400)) in
  let pressed := Gtk_main args [DrawWindow (Some (0, 0, 800, 400)); ButtonPress 1]
                   fresh in
  let released := Gtk_main args WorkedExample.click_events fresh in
  drag (obj pressed) = true
  /\ cursor_rect (obj pressed) = Rect_empty
  /\ Rect_bool (cursor_rect (obj pressed)) = false
  /\ on_draw_cursor pressed = (Ok ReturnNone, pressed)
  /\ set_target_geometry_from_cursor args (mkState (set_drag false (obj pressed))
                                            (env pressed))
     = (Raise TypeError, mkState (set_drag false (obj pressed)) (env pressed))
  /\ on_mouse_release args 1 pressed
     = (Raise TypeError, mkState (set_drag false (obj pressed)) (env pressed))
  /\ tracebacks (env released) = [TypeError]
  /\ calls (env released) = []
  /\ main_quit (env released) = false.
Proof.
  cbv zeta. repeat split; vm_compute; reflexivity.
Qed.

(** [on_draw_cursor] tests the cursor rectangle before it calls
    [to_cairo]: on a rectangle with an unset field it draws nothing and
    returns. *)
Lemma on_draw_cursor_guards (s : State) (cw ch : pyfloat) :
  Rect_bool (cursor_rect (obj s)) = false ->
  int_truediv (fst (allocation (env s))) (cols (obj s)) = Ok cw ->
  int_truediv (snd (allocation (env s))) (rows (obj s)) = Ok ch ->
  on_draw_cursor s = (Ok ReturnNone, s).
Proof.
  intros Hb Hcw Hch. unfold on_draw_cursor. unfold bind at 1.
  rewrite cell_size_run, Hcw, Hch. cbn [rbind].
  destruct s as [g w]. cbn [obj] in Hb.
  unfold get_self, when, ret, bind. cbn [obj env]. now rewrite Hb.
Qed.

(** The mapper has no such test: on a rectangle with an unset field it
    raises, in whatever state it is run. *)
Lemma mapper_on_unset_rect (args : Args) (s : State) (cw ch : pyfloat) :
  Rect_bool (cursor_rect (obj s)) = false ->
  int_truediv (fst (allocation (env s))) (cols (obj s)) = Ok cw ->
  int_truediv (snd (allocation (env s))) (rows (obj s)) = Ok ch ->
  set_target_geometry_from_cursor args s
  = (Raise TypeError, mkState (obj s) (unmaximized (env s))).
Proof.
  intros Hb Hcw Hch. rewrite set_target_geometry_from_cursor_run.
  unfold compute_target_geometry. rewrite Hcw, Hch. cbn [rbind].
  now rewrite (to_cairo_unset _ cw ch Hb).
Qed.

(** Once a pointer move has set all four fields they stay set: the
    mapper can meet an unset field only in a session that has not handled
    a move before the button went down. *)
Lemma cursor_rect_stays_set (args : Args) (events : list event) (s : State) :
  Rect_bool (cursor_rect (obj s)) = true ->
  Rect_bool (cursor_rect (obj (Gtk_main args events s))) = true.
Proof.
  apply (Gtk_main_invariant args
           (fun g => Rect_bool (cursor_rect g) = true)).
  intros g g' Hs. destruct Hs; cbn [cursor_rect set_drag set_wnck_window
    set_cursor_rect set_last_cursor_rect]; intros Hset; try exact Hset;
    destruct (Rect_bool_true _ Hset) as (xa & ya & xb & yb & ->); reflexivity.
Qed.

(** ** The exceptions of the pixel box *)

Lemma mul_int_float_raises (n : Z) (f : pyfloat) (e : exn) :
  mul_int_float n f = Raise e -> e = OverflowError.
Proof.
  unfold mul_int_float, float_of_int.
  destruct (float_lit n); cbn [rbind]; intros H; try discriminate;
    now injection H as <-.
Qed.

Lemma int_of_float_raises (f : pyfloat) (e : exn) :
  int_of_float f = Raise e -> e = OverflowError \/ e = ValueError.
Proof.
  destruct f; cbn; intros H; try discriminate; injection H as <-; auto.
Qed.

(** X1: [to_cairo] returns a box only for a rectangle whose four fields
    are set; it raises [TypeError] exactly for a rectangle with an unset
    field, and for a fully set rectangle it can only raise
    [OverflowError] or [ValueError], from the conversions between [int]
    and [float]. *)
Theorem to_cairo_exceptions :
  forall (r : Rect) (scale_x scale_y : pyfloat),
    match to_cairo r scale_x scale_y with
    | Ok _ => Rect_bool r = true
    | Raise e =>
        if Rect_bool r then e = OverflowError \/ e = ValueError
        else e = TypeError
    end.
Proof.
  intros r sx sy.
  destruct (Rect_bool r) eqn:Hb.
  - destruct (Rect_bool_true r Hb) as (xa & ya & xb & yb & ->).
    rewrite to_cairo_set.
    destruct (mul_int_float (Z.min xa xb) sx) as [a|e] eqn:Ha; cbn [rbind];
      [|left; exact (mul_int_float_raises _ _ _ Ha)].
    destruct (mul_int_float (Z.min ya yb) sy) as [b|e] eqn:Hb'; cbn [rbind];
      [|left; exact (mul_int_float_raises _ _ _ Hb')].
    destruct (mul_int_float (1 + Z.max xa xb - Z.min xa xb) sx) as [c|e] eqn:Hc;
      cbn [rbind]; [|left; exact (mul_int_float_raises _ _ _ Hc)].
    destruct (mul_int_float (1 + Z.max ya yb - Z.min ya yb) sy) as [d|e] eqn:Hd;
      cbn [rbind]; [|left; exact (mul_int_float_raises _ _ _ Hd)].
    destruct (int_of_float a) as [pa|e] eqn:Ia; cbn [rbind];
      [|exact (int_of_float_raises _ _ Ia)].
    destruct (int_of_float b) as [pb|e] eqn:Ib; cbn [rbind];
      [|exact (int_of_float_raises _ _ Ib)].
    destruct (int_of_float c) as [pc|e] eqn:Ic; cbn [rbind];
      [|exact (int_of_float_raises _ _ Ic)].
    destruct (int_of_float d) as [pd|e] eqn:Id; cbn [rbind];
      [reflexivity|exact (int_of_float_raises _ _ Id)].
  - now rewrite (to_cairo_unset r sx sy Hb).
Qed.

(** ** The sign of the pixel box *)

Lemma binary_round_aux_clear (m e : Z) (l : location) :
  clear_or_nan (binary_round_aux prec emax false m e l).
Proof.
  unfold binary_round_aux.
  destruct (shr_fexp prec emax m e l) as [mrs e'].
  destruct (shr_fexp prec emax _ e' loc_Exact) as [mrs' e''].
  destruct (shr_m mrs'); [left; reflexivity| |right; reflexivity].
  destruct (e'' <=? emax - prec); left; reflexivity.
Qed.

Lemma float_lit_clear (n : Z) : 0 <= n -> clear_or_nan (float_lit n).
Proof.
  intros Hn. unfold float_lit, binary_normalize.
  destruct n as [|m|m]; [left; reflexivity| |lia].
  unfold binary_round. destruct (shl_align _ _ _) as [mz ez].
  apply binary_round_aux_clear.
Qed.

Lemma fmul_clear (a b : pyfloat) :
  clear_or_nan a -> clear_or_nan b -> clear_or_nan (fmul a b).
Proof.
  intros [Ha| ->] [Hb| ->]; try (right; now destruct a); try (right; reflexivity).
  destruct a as [sa|sa| |sa ma ea], b as [sb|sb| |sb mb eb];
    cbn [sign_clear] in Ha, Hb; try discriminate;
    try (apply negb_true_iff in Ha; subst sa);
    try (apply negb_true_iff in Hb; subst sb);
    unfold fmul, SFmul; try (left; reflexivity); try (right; reflexivity).
  cbn [xorb]. apply binary_round_aux_clear.
Qed.

Lemma int_of_float_clear (f : pyfloat) (z : Z) :
  clear_or_nan f -> int_of_float f = Ok z -> 0 <= z.
Proof.
  intros [Hf| ->]; [|discriminate].
  destruct f as [s|s| |s m e]; cbn [int_of_float sign_clear] in *;
    intros H; try discriminate.
  - injection H as <-. lia.
  - apply negb_true_iff in Hf. subst s. injection H as <-.
    apply Z.shiftl_nonneg. lia.
Qed.

Lemma int_truediv_clear (a b : Z) (f : pyfloat) :
  0 <= a -> 0 < b -> int_truediv a b = Ok f -> clear_or_nan f.
Proof.
  intros Ha Hb. unfold int_truediv.
  destruct (b =? 0) eqn:Eb; [discriminate|].
  destruct (a =? 0) eqn:Ea.
  - intros H. injection H as <-. left. reflexivity.
  - apply Z.eqb_neq in Ea.
    assert (Ha' : (a <? 0) = false) by (apply Z.ltb_ge; lia).
    assert (Hb' : (b <? 0) = false) by (apply Z.ltb_ge; lia).
    rewrite Ha', Hb'. unfold fdiv, SFdiv.
    destruct (SFdiv_core_binary prec emax _ 0 _ 0) as [[mz ez] lz].
    cbn [xorb].
    pose proof (binary_round_aux_clear mz ez lz) as Hc.
    destruct (binary_round_aux prec emax false mz ez lz); intros H;
      try discriminate; injection H as <-; exact Hc.
Qed.

Lemma mul_int_float_ok (n : Z) (f p : pyfloat) :
  mul_int_float n f = Ok p -> p = fmul (float_lit n) f.
Proof.
  unfold mul_int_float, float_of_int.
  destruct (float_lit n); cbn [rbind]; intros H; try discriminate;
    now injection H as <-.
Qed.

Lemma scaled_nonneg (n : Z) (f p : pyfloat) (z : Z) :
  0 <= n -> clear_or_nan f ->
  mul_int_float n f = Ok p -> int_of_float p = Ok z -> 0 <= z.
Proof.
  intros Hn Hf Hm Hi. apply mul_int_float_ok in Hm. subst p.
  apply (int_of_float_clear (fmul (float_lit n) f)); [|exact Hi].
  apply fmul_clear; [now apply float_lit_clear|exact Hf].
Qed.

(** X2: with the cell sizes the handlers compute, [width / columns] and
    [height / rows] for an allocation that is not negative and a grid of
    at least one column and one row, a box that [to_cairo] returns never
    has a negative width or height, whatever the two corners are and
    however the divisions round; its corner is not negative either when
    the cell indices are not. *)
Theorem box_is_not_negative :
  forall (xa ya xb yb width height columns row_count : Z)
         (cell_width cell_height : pyfloat) (px py pw ph : Z),
    0 <= width -> 0 <= height -> 0 < columns -> 0 < row_count ->
    int_truediv width columns = Ok cell_width ->
    int_truediv height row_count = Ok cell_height ->
    to_cairo (Rect_of xa ya xb yb) cell_width cell_height = Ok (px, py, pw, ph) ->
    0 <= pw /\ 0 <= ph
    /\ (0 <= xa -> 0 <= xb -> 0 <= px)
    /\ (0 <= ya -> 0 <= yb -> 0 <= py).
Proof.
  intros xa ya xb yb W H c r cw ch px py pw ph HW HH Hc Hr Hcw Hch.
  pose proof (int_truediv_clear W c cw HW Hc Hcw) as Cw.
  pose proof (int_truediv_clear H r ch HH Hr Hch) as Ch.
  rewrite to_cairo_set.
  destruct (mul_int_float (Z.min xa xb) cw) as [a|] eqn:Ma; [|discriminate].
  destruct (mul_int_float (Z.min ya yb) ch) as [b|] eqn:Mb; [|discriminate].
  destruct (mul_int_float (1 + Z.max xa xb - Z.min xa xb) cw) as [c'|] eqn:Mc;
    [|discriminate].
  destruct (mul_int_float (1 + Z.max ya yb - Z.min ya yb) ch) as [d|] eqn:Md;
    [|discriminate].
  cbn [rbind].
  destruct (int_of_float a) as [pa|] eqn:Ia; [|discriminate].
  destruct (int_of_float b) as [pb|] eqn:Ib; [|discriminate].
  destruct (int_of_float c') as [pc|] eqn:Ic; [|discriminate].
  destruct (int_of_float d) as [pd|] eqn:Id; [|discriminate].
  cbn [rbind]. intros E. injection E as <- <- <- <-.
  split; [eapply scaled_nonneg; [|exact Cw|exact Mc|exact Ic]; lia|].
  split; [eapply scaled_nonneg; [|exact Ch|exact Md|exact Id]; lia|].
  split; intros.
  - eapply scaled_nonneg; [|exact Cw|exact Ma|exact Ia]. lia.
  - eapply scaled_nonneg; [|exact Ch|exact Mb|exact Ib]. lia.
Qed.

Lemma box_is_not_negative_witness :
  0 <= 1366 /\ 0 <= 768 /\ 0 < 16 /\ 0 < 10
  /\ int_truediv 1366 16 = Ok (S754_finite false 6007731534168064 (-46))
  /\ int_truediv 768 10 = Ok (S754_finite false 5404319552844595 (-46))
  /\ to_cairo (Rect_of 3 2 5 1) (S754_finite false 6007731534168064 (-46))
       (S754_finite false 5404319552844595 (-46)) = Ok (256, 76, 256, 153)
  /\ (0 <= 256 /\ 0 <= 153
      /\ (0 <= 3 -> 0 <= 5 -> 0 <= 256)
      /\ (0 <= 2 -> 0 <= 1 -> 0 <= 76)).
Proof.
  assert (H1 : 0 <= 1366) by lia. assert (H2 : 0 <= 768) by lia.
  assert (H3 : 0 < 16) by lia. assert (H4 : 0 < 10) by lia.
  assert (H5 : int_truediv 1366 16
               = Ok (S754_finite false 6007731534168064 (-46)))
    by (vm_compute; reflexivity).
  assert (H6 : int_truediv 768 10
               = Ok (S754_finite false 5404319552844595 (-46)))
    by (vm_compute; reflexivity).
  assert (H7 : to_cairo (Rect_of 3 2 5 1)
                 (S754_finite false 6007731534168064 (-46))
                 (S754_finite false 5404319552844595 (-46))
               = Ok (256, 76, 256, 153)) by (vm_compute; reflexivity).
  split; [exact H1|]. split; [exact H2|]. split; [exact H3|].
  split; [exact H4|]. split; [exact H5|]. split; [exact H6|].
  split; [exact H7|].
  exact (box_is_not_negative 3 2 5 1 1366 768 16 10 _ _
           256 76 256 153 H1 H2 H3 H4 H5 H6 H7).
Defined.

(** ** Exact arithmetic on whole pixels *)

Lemma digits2_bounds (p : positive) :
  2 ^ (Zpos (digits2_pos p) - 1) <= Zpos p < 2 ^ Zpos (digits2_pos p).
Proof.
  induction p as [p IH|p IH|]; cbn [digits2_pos].
  - rewrite Pos2Z.inj_succ.
    replace (Z.succ (Zpos (digits2_pos p)) - 1)
      with (Z.succ (Zpos (digits2_pos p) - 1)) by lia.
    rewrite !Z.pow_succ_r by lia. lia.
  - rewrite Pos2Z.inj_succ.
    replace (Z.succ (Zpos (digits2_pos p)) - 1)
      with (Z.succ (Zpos (digits2_pos p) - 1)) by lia.
    rewrite !Z.pow_succ_r by lia. lia.
  - cbn. lia.
Qed.

Lemma digits2_le (p : positive) (k : Z) :
  0 <= k -> Zpos p < 2 ^ k -> Zpos (digits2_pos p) <= k.
Proof.
  intros Hk H. destruct (digits2_bounds p) as [Hl _].
  destruct (Z.le_gt_cases (Zpos (digits2_pos p)) k) as [Hle|Hgt]; [exact Hle|].
  exfalso.
  assert (2 ^ k <= 2 ^ (Zpos (digits2_pos p) - 1)) by (apply Z.pow_le_mono_r; lia).
  lia.
Qed.

Lemma digits2_mono (p q : positive) :
  (p <= q)%positive -> Zpos (digits2_pos p) <= Zpos (digits2_pos q).
Proof.
  intros H. apply digits2_le; [lia|].
  destruct (digits2_bounds q) as [_ Hu]. lia.
Qed.

Lemma iter_pos_iter {A : Type} (f : A -> A) (p : positive) (x : A) :
  iter_pos f p x = Pos.iter f x p.
Proof.
  revert x. induction p as [p IH|p IH|]; intros x; cbn [iter_pos Pos.iter].
  - rewrite !IH. rewrite <- !Pos.iter_swap. reflexivity.
  - now rewrite !IH.
  - reflexivity.
Qed.

Lemma shr_iter_xO (m k : positive) :
  iter_pos shr_1 k (Build_shr_record (Zpos (Pos.iter xO m k)) false false)
  = Build_shr_record (Zpos m) false false.
Proof.
  rewrite iter_pos_iter.
  induction k as [|k IH] using Pos.peano_ind.
  - reflexivity.
  - rewrite Pos.iter_succ_r. rewrite Pos.iter_succ. cbn [shr_1 orb]. exact IH.
Qed.

Lemma Zpos_iter_xO (m k : positive) :
  Zpos (Pos.iter xO m k) = Zpos m * 2 ^ Zpos k.
Proof.
  induction k as [|k IH] using Pos.peano_ind.
  - cbn. lia.
  - rewrite Pos.iter_succ, Pos2Z.inj_succ, Z.pow_succ_r by lia.
    rewrite Pos2Z.inj_xO, IH. lia.
Qed.

Lemma round_aux_shifted (s : bool) (m k : positive) (e : Z) :
  bounded prec emax m e = true ->
  binary_round_aux prec emax s (Zpos (Pos.iter xO m k)) (e - Zpos k) loc_Exact
  = S754_finite s m e.
Proof.
  unfold bounded, canonical_mantissa. intros H.
  apply andb_true_iff in H. destruct H as [Hc Hb].
  apply Z.eqb_eq in Hc.
  unfold binary_round_aux, shr_fexp. cbn [Zdigits2].
  rewrite digits2_iter_xO.
  replace (Zpos (digits2_pos m) + Zpos k + (e - Zpos k))
    with (Zpos (digits2_pos m) + e) by lia.
  rewrite Hc.
  replace (e - (e - Zpos k)) with (Zpos k) by lia.
  cbn [shr_record_of_loc shr]. rewrite shr_iter_xO.
  cbn [shr_m loc_of_shr_record round_nearest_even Zdigits2].
  replace (e - Zpos k + Zpos k) with e by lia.
  rewrite Hc, Z.sub_diag. cbn [shr shr_m]. now rewrite Hb.
Qed.

Lemma round_aux_value (s : bool) (mm M : positive) (ee E : Z) :
  bounded prec emax M E = true ->
  ee <= E ->
  Zpos mm = Zpos M * 2 ^ (E - ee) ->
  binary_round_aux prec emax s (Zpos mm) ee loc_Exact = S754_finite s M E.
Proof.
  intros Hb Hle Hm.
  destruct (E - ee) as [|k|k] eqn:Hk; try lia.
  - assert (ee = E) by lia. subst ee.
    assert (mm = M) by (rewrite Z.pow_0_r in Hm; lia). subst mm.
    now apply round_aux_exact.
  - assert (ee = E - Zpos k) by lia. subst ee.
    rewrite <- Zpos_iter_xO in Hm. injection Hm as ->.
    now apply round_aux_shifted.
Qed.

Lemma binary_round_form (s : bool) (m : positive) :
  Zpos (digits2_pos m) <= 53 ->
  exists M E,
    binary_round prec emax s m 0 = S754_finite s M E
    /\ bounded prec emax M E = true
    /\ E = Zpos (digits2_pos m) - 53
    /\ Zpos M = Zpos m * 2 ^ (- E).
Proof.
  intros Hd. unfold binary_round.
  assert (Hf : fexp prec emax (Zpos (digits2_pos m) + 0)
               = Zpos (digits2_pos m) - 53).
  { unfold fexp, emin, prec, emax. lia. }
  rewrite Hf. unfold shl_align.
  destruct (Zpos (digits2_pos m) - 53 - 0) as [|d|d] eqn:Hs; try lia.
  - assert (Hb : bounded prec emax m 0 = true).
    { unfold bounded, canonical_mantissa.
      apply andb_true_iff. split; [apply Z.eqb_eq|reflexivity].
      unfold fexp, emin, prec, emax. lia. }
    exists m, 0. split; [now apply round_aux_exact|].
    split; [exact Hb|]. split; [lia|]. cbn. lia.
  - assert (He : Zpos (digits2_pos m) - 53 = Zneg d) by lia.
    rewrite He.
    assert (Hb : bounded prec emax (Pos.iter xO m d) (Zneg d) = true).
    { unfold bounded, canonical_mantissa.
      apply andb_true_iff.
      split; [apply Z.eqb_eq|apply Z.leb_le; unfold emax, prec; lia].
      rewrite digits2_iter_xO. unfold fexp, emin, prec, emax. lia. }
    exists (Pos.iter xO m d), (Zneg d).
    split; [now apply round_aux_exact|]. split; [exact Hb|].
    split; [reflexivity|]. rewrite Zpos_iter_xO. reflexivity.
Qed.

Lemma float_lit_form (n : Z) :
  n <> 0 -> Z.abs n < exact_bound ->
  exists M E,
    float_lit n = S754_finite (n <? 0) M E
    /\ bounded prec emax M E = true
    /\ E = Zpos (digits2_pos (Z.to_pos (Z.abs n))) - 53
    /\ E <= 0
    /\ Zpos M = Z.abs n * 2 ^ (- E).
Proof.
  intros Hn Hb. unfold float_lit, binary_normalize.
  destruct n as [|m|m]; [contradiction| |].
  - assert (Hd : Zpos (digits2_pos m) <= 53).
    { apply digits2_le; [lia|]. change (2 ^ 53) with exact_bound. exact Hb. }
    destruct (binary_round_form false m Hd) as (M & E & H1 & H2 & H3 & H4).
    exists M, E. cbn [Z.abs Z.to_pos Z.ltb Z.compare].
    repeat split; try assumption. lia.
  - assert (Hd : Zpos (digits2_pos m) <= 53).
    { apply digits2_le; [lia|]. change (2 ^ 53) with exact_bound. exact Hb. }
    destruct (binary_round_form true m Hd) as (M & E & H1 & H2 & H3 & H4).
    exists M, E. cbn [Z.abs Z.to_pos Z.ltb Z.compare].
    repeat split; try assumption. lia.
Qed.

Lemma fmul_float_lit (a b : Z) :
  a <> 0 -> b <> 0 ->
  Z.abs a < exact_bound -> Z.abs b < exact_bound ->
  Z.abs (a * b) < exact_bound ->
  fmul (float_lit a) (float_lit b) = float_lit (a * b).
Proof.
  intros Ha Hb Ba Bb Bab.
  assert (Hab : a * b <> 0) by lia.
  destruct (float_lit_form a Ha Ba) as (Ma & Ea & Fa & Va & Da & La & Pa).
  destruct (float_lit_form b Hb Bb) as (Mb & Eb & Fb & Vb & Db & Lb & Pb).
  destruct (float_lit_form (a * b) Hab Bab)
    as (M & E & F & V & D & L & P).
  rewrite Fa, Fb, F. unfold fmul, SFmul.
  assert (Hs : xorb (a <? 0) (b <? 0) = (a * b <? 0)).
  { destruct (a <? 0) eqn:Sa, (b <? 0) eqn:Sb; cbn [xorb]; symmetry;
      rewrite ?Z.ltb_lt, ?Z.ltb_ge in *; try apply Z.ltb_lt; try apply Z.ltb_ge; nia. }
  rewrite Hs.
  assert (Hdig : Zpos (digits2_pos (Z.to_pos (Z.abs a)))
                 <= Zpos (digits2_pos (Z.to_pos (Z.abs (a * b))))).
  { apply digits2_mono.
    assert (Z.abs a <= Z.abs (a * b)) by (rewrite Z.abs_mul; nia).
    lia. }
  assert (Hdb : Zpos (digits2_pos (Z.to_pos (Z.abs b))) <= 53) by lia.
  apply round_aux_value; [exact V|lia|].
  rewrite Pos2Z.inj_mul, Pa, Pb, P, Z.abs_mul.
  assert (Hp : 2 ^ (- Ea) * 2 ^ (- Eb) = 2 ^ (- E) * 2 ^ (E - (Ea + Eb))).
  { rewrite <- !Z.pow_add_r by lia. f_equal. lia. }
  replace (Z.abs a * 2 ^ (- Ea) * (Z.abs b * 2 ^ (- Eb)))
    with (Z.abs a * Z.abs b * (2 ^ (- Ea) * 2 ^ (- Eb))) by ring.
  rewrite Hp. ring.
Qed.

Lemma scaled_exact (n c : Z) :
  Z.abs n < exact_bound -> Z.abs c < exact_bound ->
  Z.abs (n * c) < exact_bound ->
  (p <- mul_int_float n (float_lit c) ;; int_of_float p) = Ok (n * c).
Proof.
  intros Bn Bc Bnc. unfold mul_int_float, float_of_int.
  destruct (Z.eq_dec n 0) as [->|Hn].
  - change (float_lit 0) with (S754_zero false). cbn [rbind Z.mul].
    destruct (Z.eq_dec c 0) as [->|Hc]; [reflexivity|].
    destruct (float_lit_form c Hc Bc) as (M & E & F & _).
    now rewrite F.
  - destruct (float_lit_form n Hn Bn) as (M & E & F & _).
    rewrite F. cbn [rbind]. rewrite <- F.
    destruct (Z.eq_dec c 0) as [->|Hc].
    + rewrite F. rewrite Z.mul_0_r. reflexivity.
    + rewrite (fmul_float_lit n c Hn Hc Bn Bc Bnc).
      apply float_lit_exact. exact Bnc.
Qed.

Lemma to_cairo_products_exact :
  forall (xa ya xb yb cell_width cell_height : Z),
    let lx := Z.min xa xb in
    let ly := Z.min ya yb in
    let nx := 1 + Z.max xa xb - lx in
    let ny := 1 + Z.max ya yb - ly in
    Z.abs cell_width < exact_bound -> Z.abs cell_height < exact_bound ->
    Z.abs lx < exact_bound -> Z.abs ly < exact_bound ->
    nx < exact_bound -> ny < exact_bound ->
    Z.abs (lx * cell_width) < exact_bound ->
    Z.abs (ly * cell_height) < exact_bound ->
    Z.abs (nx * cell_width) < exact_bound ->
    Z.abs (ny * cell_height) < exact_bound ->
    to_cairo (Rect_of xa ya xb yb) (float_lit cell_width) (float_lit cell_height)
    = Ok (lx * cell_width, ly * cell_height, nx * cell_width, ny * cell_height).
Proof.
  intros xa ya xb yb w h lx ly nx ny Bw Bh Blx Bly Bnx Bny P1 P2 P3 P4.
  assert (Bnx' : Z.abs nx < exact_bound) by (subst nx lx; lia).
  assert (Bny' : Z.abs ny < exact_bound) by (subst ny ly; lia).
  pose proof (scaled_exact lx w Blx Bw P1) as S1.
  pose proof (scaled_exact ly h Bly Bh P2) as S2.
  pose proof (scaled_exact nx w Bnx' Bw P3) as S3.
  pose proof (scaled_exact ny h Bny' Bh P4) as S4.
  rewrite to_cairo_set. fold lx ly. fold nx ny.
  destruct (mul_int_float lx (float_lit w)) as [a|]; [|discriminate].
  destruct (mul_int_float ly (float_lit h)) as [b|]; [|discriminate].
  destruct (mul_int_float nx (float_lit w)) as [c|]; [|discriminate].
  destruct (mul_int_float ny (float_lit h)) as [d|]; [|discriminate].
  cbn [rbind] in *. now rewrite S1, S2, S3, S4.
Qed.

(** X3: for a cell size of whole pixels (an integer below 2^31, as a
    [float]) and cell indices below 2^20 in size, the float arithmetic of
    [to_cairo] is exact: the box is the integer box, its corner the
    smaller indices times the cell size and its extent the number of
    cells covered times the cell size, with no rounding or truncation
    loss and no exception. *)
Theorem to_cairo_integral_cells :
  forall (xa ya xb yb cell_width cell_height : Z),
    0 <= cell_width < 2147483648 -> 0 <= cell_height < 2147483648 ->
    Z.abs xa < 1048576 -> Z.abs ya < 1048576 ->
    Z.abs xb < 1048576 -> Z.abs yb < 1048576 ->
    to_cairo (Rect_of xa ya xb yb) (float_lit cell_width) (float_lit cell_height)
    = Ok (Z.min xa xb * cell_width, Z.min ya yb * cell_height,
          (1 + Z.max xa xb - Z.min xa xb) * cell_width,
          (1 + Z.max ya yb - Z.min ya yb) * cell_height).
Proof.
  intros xa ya xb yb w h Hw Hh Hxa Hya Hxb Hyb.
  apply to_cairo_products_exact; unfold exact_bound; try lia; nia.
Qed.

Lemma to_cairo_integral_cells_witness :
  (0 <= 200 < 2147483648 /\ 0 <= 200 < 2147483648
   /\ Z.abs 1 < 1048576 /\ Z.abs 0 < 1048576
   /\ Z.abs 2 < 1048576 /\ Z.abs 1 < 1048576)
  /\ to_cairo (Rect_of 1 0 2 1) (float_lit 200) (float_lit 200)
     = Ok (Z.min 1 2 * 200, Z.min 0 1 * 200,
           (1 + Z.max 1 2 - Z.min 1 2) * 200,
           (1 + Z.max 0 1 - Z.min 0 1) * 200).
Proof.
  split; [cbn; lia|].
  apply (to_cairo_integral_cells 1 0 2 1 200 200); cbn; lia.
Defined.

Lemma div_eucl_pair (a b : Z) : Z.div_eucl a b = (a / b, a mod b).
Proof. unfold Z.div, Z.modulo. now destruct (Z.div_eucl a b). Qed.

Lemma new_location_zero (n : Z) : new_location n 0 = loc_Exact.
Proof.
  unfold new_location, new_location_even, new_location_odd.
  now destruct (Z.even n).
Qed.

Lemma int_truediv_exact (q c : Z) :
  0 <= q -> 0 < c -> c < exact_bound -> q * c < exact_bound ->
  int_truediv (q * c) c = Ok (float_lit q).
Proof.
  intros Hq Hc Bc Bqc. unfold int_truediv.
  assert (Ec : (c =? 0) = false) by (apply Z.eqb_neq; lia). rewrite Ec.
  assert (Sc : (c <? 0) = false) by (apply Z.ltb_ge; lia). rewrite Sc.
  destruct (Z.eq_dec q 0) as [->|Hq0]; [reflexivity|].
  assert (Hqc : 0 < q * c) by nia.
  assert (Eq : (q * c =? 0) = false) by (apply Z.eqb_neq; lia). rewrite Eq.
  assert (Sq : (q * c <? 0) = false) by (apply Z.ltb_ge; lia). rewrite Sq.
  assert (Bq : Z.abs q < exact_bound) by nia.
  destruct (float_lit_form q Hq0 Bq) as (M & E & F & V & D & L & P).
  assert (Sq' : (q <? 0) = false) by (apply Z.ltb_ge; lia).
  rewrite Sq' in F. rewrite F.
  rewrite !Z.abs_eq by lia.
  set (mW := Z.to_pos (q * c)). set (mc := Z.to_pos c).
  assert (HW : Zpos mW = q * c) by (subst mW; rewrite Z2Pos.id; lia).
  assert (Hmc : Zpos mc = c) by (subst mc; rewrite Z2Pos.id; lia).
  assert (Hmq : Zpos (Z.to_pos q) = q) by (rewrite Z2Pos.id; lia).
  rewrite Z.abs_eq in D, P by lia.
  (* digits of the dividend are at most those of the quotient and divisor *)
  assert (Hdig : Zpos (digits2_pos mW)
                 <= Zpos (digits2_pos (Z.to_pos q)) + Zpos (digits2_pos mc)).
  { apply digits2_le; [lia|].
    destruct (digits2_bounds (Z.to_pos q)) as [_ Uq].
    destruct (digits2_bounds mc) as [_ Uc].
    rewrite Z.pow_add_r by lia. rewrite HW. rewrite Hmq in Uq. rewrite Hmc in Uc.
    nia. }
  unfold fdiv, SFdiv, SFdiv_core_binary. cbn [Zdigits2 xorb].
  set (e' := Z.min (fexp prec emax
                      (Zpos (digits2_pos mW) + 0 - (Zpos (digits2_pos mc) + 0)))
                   (0 - 0)).
  assert (He0 : e' <= 0) by (subst e'; lia).
  assert (HeE : e' <= E).
  { subst e'. unfold fexp, emin, prec, emax. lia. }
  assert (Hm' : match 0 - 0 - e' with
                | Z0 => Zpos mW
                | Zpos _ => Z.shiftl (Zpos mW) (0 - 0 - e')
                | Zneg _ => 0
                end = q * 2 ^ (- e') * c).
  { destruct (0 - 0 - e') as [|k|k] eqn:Hk; try lia.
    - replace (- e') with 0 by lia. rewrite HW. cbn. ring.
    - rewrite Z.shiftl_mul_pow2 by lia. rewrite HW.
      replace (- e') with (Zpos k) by lia. ring. }
  rewrite Hm', Hmc, div_eucl_pair.
  rewrite Z.div_mul by lia. rewrite Z.mod_mul by lia.
  rewrite new_location_zero.
  assert (Hpos : 0 < q * 2 ^ (- e')).
  { apply Z.mul_pos_pos; [lia|]. apply Z.pow_pos_nonneg; lia. }
  rewrite <- (Z2Pos.id (q * 2 ^ (- e')) Hpos).
  rewrite (round_aux_value false _ M e' E V HeE).
  - reflexivity.
  - rewrite Z2Pos.id by exact Hpos. rewrite P.
    rewrite <- Z.mul_assoc, <- Z.pow_add_r by lia. f_equal. f_equal. lia.
Qed.


(** ** The pixel box and the exact products *)

(** Nine columns over 800 pixels: the cell is 800/9 rounded, a little
    less than 88.889; nine cells are 799.99... pixels, which truncates
    to 799, while the code rounds the product to 800.0 first. *)
Lemma nine_cells_round_up :
  int_truediv 800 9 = Ok (S754_finite false 6254999482459022 (-46))
  /\ to_cairo (Rect_of 0 0 8 0)
       (S754_finite false 6254999482459022 (-46)) (float_lit 400)
     = Ok (0, 0, 800, 400)
  /\ normalized_pixel_box 0 0 8 0
       (S754_finite false 6254999482459022 (-46)) (float_lit 400)
     = Some (0, 0, 799, 400).
Proof. repeat split; vm_compute; reflexivity. Qed.

(** Truncating [M * 2 ^ E], written with the smaller exponent [e]. *)
Lemma shiftl_dyadic (M : positive) (E e : Z) :
  e <= E ->
  Z.shiftl (Zpos M) E
  = if 0 <=? e then Zpos M * 2 ^ (E - e) * 2 ^ e
    else Zpos M * 2 ^ (E - e) / 2 ^ (- e).
Proof.
  intros Hle. destruct (Z.leb_spec 0 e) as [He|He].
  - rewrite Z.shiftl_mul_pow2 by lia.
    rewrite <- Z.mul_assoc, <- Z.pow_add_r by lia.
    f_equal. f_equal. lia.
  - destruct (Z.le_gt_cases 0 E) as [HE|HE].
    + rewrite Z.shiftl_mul_pow2 by lia.
      replace (E - e) with (E + - e) by lia.
      rewrite Z.pow_add_r by lia. rewrite Z.mul_assoc.
      rewrite Z.div_mul; [reflexivity|].
      apply Z.pow_nonzero; lia.
    + rewrite Z.shiftl_div_pow2 by lia.
      replace (2 ^ (- e)) with (2 ^ (- E) * 2 ^ (E - e)).
      * rewrite Z.div_mul_cancel_r; [reflexivity| |];
          apply Z.pow_nonzero; lia.
      * rewrite <- Z.pow_add_r by lia. f_equal. lia.
Qed.

Lemma quot_signed (neg : bool) (p d : Z) :
  0 <= p -> 0 < d ->
  Z.quot (if neg then - p else p) d = if neg then - (p / d) else p / d.
Proof.
  intros Hp Hd. destruct neg.
  - rewrite Z.quot_opp_l by lia. now rewrite Z.quot_div_nonneg by lia.
  - now rewrite Z.quot_div_nonneg by lia.
Qed.

Lemma signed_product (n : Z) (s : bool) (m : positive) :
  n * (if s then Zneg m else Zpos m)
  = if xorb (n <? 0) s then - (Z.abs n * Zpos m) else Z.abs n * Zpos m.
Proof.
  destruct (Z.ltb_spec n 0), s; cbn [xorb]; lia.
Qed.

(** Where the product is a binary64 number the code computes it. *)
Lemma scaled_when_binary64 (n : Z) (cell : pyfloat) :
  product_is_binary64 n cell ->
  to_option (p <- mul_int_float n cell ;; int_of_float p) = scaled n cell.
Proof.
  intros [Bn Hc]. unfold mul_int_float, float_of_int.
  destruct (Z.eq_dec n 0) as [->|Hn].
  - change (float_lit 0) with (S754_zero false). cbn [rbind].
    destruct cell as [s|s| |s m e]; try reflexivity.
    cbn [fmul SFmul int_of_float to_option scaled rbind Z.mul].
    now destruct (0 <=? e).
  - destruct (float_lit_form n Hn Bn) as (Mn & En & F & Vn & Dn & Ln & Pn).
    rewrite F. cbn [rbind].
    destruct cell as [s|s| |s m e]; try reflexivity.
    destruct Hc as [H0|(M & E & VM & HE & HP)]; [contradiction|].
    unfold fmul, SFmul.
    rewrite (round_aux_value (xorb (n <? 0) s) (Mn * m) M (En + e) E VM).
    + cbn [int_of_float to_option scaled]. f_equal.
      rewrite signed_product, (shiftl_dyadic M E e HE), HP.
      destruct (Z.leb_spec 0 e) as [He|He].
      * now destruct (xorb (n <? 0) s); rewrite ?Z.mul_opp_l.
      * rewrite quot_signed; [reflexivity| |].
        -- apply Z.mul_nonneg_nonneg; [lia|]. apply Z.pow_nonneg. lia.
        -- apply Z.pow_pos_nonneg; lia.
    + lia.
    + rewrite Pos2Z.inj_mul, Pn.
      replace (E - (En + e)) with ((E - e) + - En) by lia.
      rewrite Z.pow_add_r by lia.
      rewrite Z.mul_assoc, <- HP. ring.
Qed.

(** C2, amended: on a rectangle with all four fields set, [to_cairo]
    multiplies in binary64, so each product is rounded to the nearest
    float before it is truncated.  Where the four products of the
    specification (the two minima and one plus the two extents, times
    the cell sizes) are binary64 numbers themselves, nothing is rounded
    and [to_cairo] returns exactly the box of the specification, each
    exact product truncated toward zero; it returns no box exactly
    where that box is undefined. *)
Theorem to_cairo_is_normalized_pixel_box :
  forall (xa ya xb yb : Z) (cell_width cell_height : pyfloat),
    product_is_binary64 (Z.min xa xb) cell_width ->
    product_is_binary64 (Z.min ya yb) cell_height ->
    product_is_binary64 (1 + Z.max xa xb - Z.min xa xb) cell_width ->
    product_is_binary64 (1 + Z.max ya yb - Z.min ya yb) cell_height ->
    to_option (to_cairo (Rect_of xa ya xb yb) cell_width cell_height)
    = normalized_pixel_box xa ya xb yb cell_width cell_height.
Proof.
  intros xa ya xb yb cw ch H1 H2 H3 H4.
  rewrite to_cairo_set. unfold normalized_pixel_box. cbv zeta.
  rewrite <- (scaled_when_binary64 _ _ H1), <- (scaled_when_binary64 _ _ H2),
    <- (scaled_when_binary64 _ _ H3), <- (scaled_when_binary64 _ _ H4).
  destruct (mul_int_float (Z.min xa xb) cw) as [a|]; cbn [rbind to_option];
  destruct (mul_int_float (Z.min ya yb) ch) as [b|]; cbn [rbind to_option];
  destruct (mul_int_float (1 + Z.max xa xb - Z.min xa xb) cw) as [c|];
    cbn [rbind to_option];
  destruct (mul_int_float (1 + Z.max ya yb - Z.min ya yb) ch) as [d|];
    cbn [rbind to_option];
  try destruct (int_of_float a); cbn [rbind to_option];
  try destruct (int_of_float b); cbn [rbind to_option];
  try destruct (int_of_float c); cbn [rbind to_option];
  try destruct (int_of_float d); cbn [rbind to_option];
  reflexivity.
Qed.

Lemma to_cairo_is_normalized_pixel_box_witness :
  let cell_width := S754_finite false 6007731534168064 (-46) in
  let cell_height := S754_finite false 5404319552844595 (-46) in
  (product_is_binary64 (Z.min 3 5) cell_width
   /\ product_is_binary64 (Z.min 2 1) cell_height
   /\ product_is_binary64 (1 + Z.max 3 5 - Z.min 3 5) cell_width
   /\ product_is_binary64 (1 + Z.max 2 1 - Z.min 2 1) cell_height)
  /\ to_option (to_cairo (Rect_of 3 2 5 1) cell_width cell_height)
     = normalized_pixel_box 3 2 5 1 cell_width cell_height.
Proof.
  intros cell_width cell_height.
  assert (H1 : product_is_binary64 (Z.min 3 5) cell_width).
  { split; [reflexivity|]. right. exists 4505798650626048%positive, (-44).
    vm_compute. repeat split; (reflexivity || discriminate). }
  assert (H2 : product_is_binary64 (Z.min 2 1) cell_height).
  { split; [reflexivity|]. right. exists 5404319552844595%positive, (-46).
    vm_compute. repeat split; (reflexivity || discriminate). }
  assert (H3 : product_is_binary64 (1 + Z.max 3 5 - Z.min 3 5) cell_width).
  { split; [reflexivity|]. right. exists 4505798650626048%positive, (-44).
    vm_compute. repeat split; (reflexivity || discriminate). }
  assert (H4 : product_is_binary64 (1 + Z.max 2 1 - Z.min 2 1) cell_height).
  { split; [reflexivity|]. right. exists 5404319552844595%positive, (-45).
    vm_compute. repeat split; (reflexivity || discriminate). }
  split; [split; [exact H1|split; [exact H2|split; [exact H3|exact H4]]]|].
  exact (to_cairo_is_normalized_pixel_box 3 2 5 1 cell_width cell_height
           H1 H2 H3 H4).
Defined.


(** ** Offsets *)

Lemma add_offsets_firstn (a b c d : Z) (l : list Z) :
  add_offsets [a; b; c; d] l = add_offsets [a; b; c; d] (firstn 4 l).
Proof. destruct l as [|p [|q [|r [|t l]]]]; reflexivity. Qed.

Lemma firstn_pad_offset (parsed : list Z) :
  firstn 4 (pad_offset parsed) = firstn 4 (parsed ++ [0; 0; 0; 0]).
Proof. destruct parsed as [|p [|q [|r [|t l]]]]; reflexivity. Qed.

Lemma compute_target_geometry_firstn (args : Args) (g : GridLock) (w : World) :
  compute_target_geometry args g w
  = compute_target_geometry (with_offset (firstn 4 (offset args)) args) g w.
Proof.
  unfold compute_target_geometry, with_offset. cbn [offset].
  destruct (int_truediv (fst (allocation w)) (cols g)); [|reflexivity].
  destruct (int_truediv (snd (allocation w)) (rows g)); [|reflexivity].
  cbn [rbind].
  destruct (to_cairo _ _ _) as [[[[x y] wd] ht]|]; [|reflexivity].
  destruct (wnck_window g) as [[[[gx gy] gw] gh]|]; [|reflexivity].
  cbn [rbind]. now rewrite add_offsets_firstn.
Qed.

(** X4: the start-up code pads a parsed offset with zeros to four
    components and leaves a longer one as it is; the mapper reads the
    first four only. So the request made with the offset the start-up
    code stores is the one made with the first four components of the
    parsed tuple followed by zeros: missing components count as 0,
    components after the fourth are ignored. *)
Theorem offset_is_padded_and_cut :
  forall (args : Args) (parsed : list Z) (s : State),
    set_target_geometry_from_cursor (with_offset (pad_offset parsed) args) s
    = set_target_geometry_from_cursor
        (with_offset (firstn 4 (parsed ++ [0; 0; 0; 0])) args) s.
Proof.
  intros args parsed s.
  rewrite !set_target_geometry_from_cursor_run.
  rewrite (compute_target_geometry_firstn (with_offset (pad_offset parsed) args)).
  rewrite (compute_target_geometry_firstn
             (with_offset (firstn 4 (parsed ++ [0; 0; 0; 0])) args)).
  unfold with_offset. cbn [offset gravity live_preview hide_cursor].
  rewrite firstn_pad_offset, firstn_firstn. reflexivity.
Qed.

(** ** Handlers on the world *)

Lemma on_mouse_release_run (args : Args) (s : State) :
  on_mouse_release args 1 s =
  match set_target_geometry_from_cursor args
          (mkState (set_drag false (obj s)) (env s)) with
  | (Ok _, s1) =>
      (Ok ReturnTrue, mkState (obj s1) (apply_call GtkMainQuit (env s1)))
  | (Raise e, s1) => (Raise e, s1)
  end.
Proof.
  destruct s as [g w]. unfold on_mouse_release. cbn [Z.eqb Pos.eqb].
  unfold update_self, do_call, ret. unfold bind at 1. cbn [obj env].
  unfold bind at 1.
  destruct (set_target_geometry_from_cursor args _) as [[u|e] s1]; reflexivity.
Qed.

Lemma on_draw_cursor_env (s : State) :
  exists d, env (snd (on_draw_cursor s)) = apply_calls d (env s)
            /\ filter is_set_geometry d = []
            /\ main_quit (apply_calls d (env s)) = main_quit (env s).
Proof.
  unfold on_draw_cursor. unfold bind at 1. rewrite cell_size_run.
  case_cell_size s cw ch; try (exists []; now split).
  destruct s as [g w]. unfold get_self, when, lift, do_call, ret, bind.
  cbn [obj env fst snd].
  destruct (Rect_bool (cursor_rect g)); [|exists []; now split].
  destruct (to_cairo (cursor_rect g) cw ch) as [[[[x y] wd] ht]|e];
    [|exists []; now split].
  exists [CairoFillRectangle x y wd ht]. now split.
Qed.

Lemma filter_unmaximize_calls (w : World) :
  filter is_set_geometry (unmaximize_calls w) = [].
Proof. unfold unmaximize_calls. now destruct (is_maximized w). Qed.

Lemma dispatch_calls_no_preview (args : Args) (e : event) (s : State) :
  live_preview args = false ->
  exists d,
    env (snd (dispatch args e s)) = apply_calls d (env s)
    /\ (filter is_set_geometry d = [] \/ committed d).
Proof.
  intros Hlp.
  destruct e as [keyval|button|button|x y|found|]; cbn [dispatch].
  - unfold on_key_press.
    destruct ((keyval =? KEY_q) || (keyval =? KEY_Escape)).
    + rewrite cancel_run, Hlp. exists [GtkMainQuit]. split; [reflexivity|now left].
    + exists []. split; [reflexivity|now left].
  - unfold on_mouse_press. destruct (button =? 1).
    + exists []. destruct s. split; [reflexivity|now left].
    + rewrite cancel_run, Hlp. exists [GtkMainQuit]. split; [reflexivity|now left].
  - destruct (Z.eqb_spec button 1) as [->|Hne].
    + rewrite on_mouse_release_run.
      destruct (set_target_geometry_world args
                  (mkState (set_drag false (obj s)) (env s)))
        as (request & Henv & Hreq).
      destruct (set_target_geometry_from_cursor args _) as [[u|x] s1];
        cbn [fst snd env obj] in *.
      * destruct Hreq as (px & py & pw & ph & ->).
        exists (unmaximize_calls (env s)
                ++ [TargetSetGeometry (gravity args) move_resize_mask px py pw ph;
                    GtkMainQuit]).
        split.
        -- rewrite Henv. rewrite !apply_calls_app. reflexivity.
        -- right. exists (unmaximize_calls (env s)).
           do 6 eexists. split; [reflexivity|apply filter_unmaximize_calls].
      * subst request. exists (unmaximize_calls (env s)).
        split; [now rewrite Henv, app_nil_r|left; apply filter_unmaximize_calls].
    + unfold on_mouse_release. apply Z.eqb_neq in Hne. rewrite Hne.
      exists []. split; [reflexivity|now left].
  - rewrite on_mouse_move_run, Hlp.
    case_cell_size s cw ch; try (exists []; split; [reflexivity|now left]).
    destruct (cell_index x cw) as [vx|]; [|exists []; split; [reflexivity|now left]].
    destruct (drag (obj s)); cbv zeta;
      (destruct (cell_index y ch) as [vy|];
       [exists [CursorQueueDraw]|exists []]; (split; [reflexivity|now left])).
  - exists []. split; [|now left].
    unfold on_draw_window, get_self, when, update_self, ret, bind.
    destruct s as [g w]. cbn [obj env]. now destruct (wnck_window g).
  - destruct (on_draw_cursor_env s) as (d & Hd & Hf & _).
    exists d. split; [exact Hd|now left].
Qed.

Lemma step_env (args : Args) (e : event) (s : State) :
  calls (env (step args e s)) = calls (env (snd (dispatch args e s)))
  /\ main_quit (env (step args e s)) = main_quit (env (snd (dispatch args e s))).
Proof. unfold step. now destruct (dispatch args e s) as [[a|x] s1]. Qed.

Lemma committed_quits (d : list call) (w : World) :
  committed d -> main_quit (apply_calls d w) = true.
Proof.
  intros (b & g & m & x & y & wd & ht & -> & _).
  change [TargetSetGeometry g m x y wd ht; GtkMainQuit]
    with ([TargetSetGeometry g m x y wd ht] ++ [GtkMainQuit]).
  rewrite app_assoc. apply main_quit_after.
Qed.

Lemma session_requests_no_preview (args : Args) (before : list call) :
  live_preview args = false ->
  forall (events : list event) (s : State) (d : list call),
    calls (env s) = before ++ d ->
    filter is_set_geometry d = [] ->
    exists d',
      calls (env (Gtk_main args events s)) = before ++ d'
      /\ (filter is_set_geometry d' = []
          \/ (committed d' /\ main_quit (env (Gtk_main args events s)) = true)).
Proof.
  intros Hlp events. induction events as [|e rest IH]; intros s d Hc Hf.
  - exists d. split; [exact Hc|now left].
  - cbn [Gtk_main]. destruct (main_quit (env s)) eqn:Hq.
    + exists d. split; [exact Hc|now left].
    + destruct (dispatch_calls_no_preview args e s Hlp) as (d1 & Henv & Hshape).
      destruct (step_env args e s) as [Hsc Hsq].
      assert (Hcalls : calls (env (step args e s)) = before ++ (d ++ d1)).
      { rewrite Hsc, Henv, calls_apply_calls, Hc. now rewrite app_assoc. }
      destruct Hshape as [Hquiet|Hcom].
      * apply (IH _ (d ++ d1) Hcalls).
        now rewrite filter_app, Hf, Hquiet.
      * assert (Hmq : main_quit (env (step args e s)) = true).
        { rewrite Hsq, Henv. now apply committed_quits. }
        destruct rest as [|e' rest']; cbn [Gtk_main]; [|rewrite Hmq];
          (exists (d ++ d1); split; [exact Hcalls|]; right; split; [|exact Hmq]);
          destruct Hcom as (b & g & m & x & y & wd & ht & -> & Hb);
          exists (d ++ b), g, m, x, y, wd, ht;
          (split; [now rewrite app_assoc|now rewrite filter_app, Hf, Hb]).
Qed.

(** X5: without live preview a whole session, whatever its events, calls
    [set_geometry] at most once; when it does, the call is the last but
    one of the session, followed only by [Gtk.main_quit], and the main
    loop has been left. *)
Theorem one_request_without_live_preview :
  forall (args : Args) (grid : Z * Z) (w : World) (events : list event),
    live_preview args = false ->
    let s := Gtk_main args events (GridLock_init grid w) in
    let d := emitted (calls w) s in
    filter is_set_geometry d = []
    \/ (main_quit (env s) = true
        /\ exists before g m x y width height,
             d = before ++ [TargetSetGeometry g m x y width height; GtkMainQuit]
             /\ filter is_set_geometry before = []).
Proof.
  intros args grid w events Hlp s d.
  destruct (session_requests_no_preview args (calls w) Hlp events
              (GridLock_init grid w) []) as (d' & Hc & Hshape).
  { cbn. now rewrite app_nil_r. }
  { reflexivity. }
  fold s in Hc, Hshape.
  assert (Hd : d = d').
  { subst d. unfold emitted. rewrite Hc, skipn_app, skipn_all, Nat.sub_diag.
    reflexivity. }
  rewrite Hd. destruct Hshape as [Hq|[Hcom Hmq]]; [now left|right].
  split; [exact Hmq|exact Hcom].
Qed.

Lemma one_request_without_live_preview_witness :
  live_preview (WorkedExample.args_of [0; 0; 0; 0]) = false
  /\ (let s := Gtk_main (WorkedExample.args_of [0; 0; 0; 0])
                 (WorkedExample.drag_events (800, 400) (250, 50) (450, 250))
                 (GridLock_init (4, 2) (WorkedExample.desktop (800, 400))) in
      let d := emitted (calls (WorkedExample.desktop (800, 400))) s in
      filter is_set_geometry d = []
      \/ (main_quit (env s) = true
          /\ exists before g m x y width height,
               d = before ++ [TargetSetGeometry g m x y width height; GtkMainQuit]
               /\ filter is_set_geometry before = [])).
Proof.
  split; [reflexivity|].
  apply (one_request_without_live_preview
           (WorkedExample.args_of [0; 0; 0; 0]) (4, 2)
           (WorkedExample.desktop (800, 400))
           (WorkedExample.drag_events (800, 400) (250, 50) (450, 250))).
  reflexivity.
Defined.

(** ** The handle of the grid window *)

Lemma dispatch_keeps_wnck_window (args : Args) (e : event) (s : State) :
  (forall found, e <> DrawWindow found) ->
  wnck_window (obj (snd (dispatch args e s))) = wnck_window (obj s).
Proof.
  intros Hne.
  destruct e as [keyval|button|button|x y|found|]; cbn [dispatch].
  - unfold on_key_press.
    destruct ((keyval =? KEY_q) || (keyval =? KEY_Escape));
      [rewrite cancel_run|]; reflexivity.
  - unfold on_mouse_press. destruct (button =? 1).
    + destruct s. reflexivity.
    + rewrite cancel_run. reflexivity.
  - destruct (Z.eqb_spec button 1) as [->|Hb].
    + rewrite on_mouse_release_run.
      pose proof (set_target_geometry_keeps_obj args
                    (mkState (set_drag false (obj s)) (env s))) as Hk.
      destruct (set_target_geometry_from_cursor args _) as [[u|x] s1];
        cbn [snd obj] in *; now rewrite Hk.
    + unfold on_mouse_release. apply Z.eqb_neq in Hb. rewrite Hb. reflexivity.
  - rewrite on_mouse_move_run.
    case_cell_size s cw ch; try reflexivity.
    destruct (cell_index x cw) as [vx|]; [|reflexivity].
    destruct (drag (obj s)); cbv zeta;
      (destruct (cell_index y ch) as [vy|]; [|reflexivity]);
      rewrite queue_draw_after_obj; [|reflexivity].
    destruct (live_preview args); [|reflexivity].
    rewrite live_preview_step_run. cbv zeta. cbn [obj env].
    destruct (last_cursor_rect _) as [l|]; [|reflexivity].
    destruct (Rect_eq l _); [reflexivity|].
    now rewrite set_target_geometry_keeps_obj.
  - now destruct (Hne found).
  - now rewrite on_draw_cursor_obj.
Qed.

Lemma on_draw_window_wnck_window (found : option Geometry) (s : State) :
  wnck_window (obj (snd (on_draw_window found s)))
  = match wnck_window (obj s) with
    | Some g => Some g
    | None => found
    end.
Proof.
  unfold on_draw_window, get_self, when, update_self, ret, bind.
  destruct s as [g w]. cbn [obj env].
  destruct (wnck_window g) eqn:E; cbn [snd obj]; [exact E|reflexivity].
Qed.

(** X6: once [on_draw_window] has obtained the handle of the grid window,
    no event of the session replaces or drops it: later draws do not ask
    for it again, and no other handler assigns it. *)
Theorem grid_window_handle_is_kept :
  forall (args : Args) (events : list event) (s : State) (g : Geometry),
    wnck_window (obj s) = Some g ->
    wnck_window (obj (Gtk_main args events s)) = Some g.
Proof.
  intros args events. induction events as [|e rest IH]; intros s g Hg.
  - exact Hg.
  - cbn [Gtk_main]. destruct (main_quit (env s)); [exact Hg|].
    apply IH. rewrite step_obj.
    destruct e as [keyval|button|button|x y|found|];
      try (rewrite dispatch_keeps_wnck_window; [exact Hg|discriminate]).
    cbn [dispatch]. now rewrite on_draw_window_wnck_window, Hg.
Qed.

Lemma grid_window_handle_is_kept_witness :
  let args := WorkedExample.args_of [0; 0; 0; 0] in
  let s := Gtk_main args [DrawWindow (Some (0, 0, 800, 400))]
             (GridLock_init (4, 2) (WorkedExample.desktop (800, 400))) in
  let events := [DrawWindow (Some (5, 5, 80, 40));
                 MotionNotify (float_lit 250) (float_lit 50);
                 ButtonPress 1; DrawWindow None; DrawCursor; ButtonRelease 1] in
  wnck_window (obj s) = Some (0, 0, 800, 400)
  /\ wnck_window (obj (Gtk_main args events s)) = Some (0, 0, 800, 400).
Proof.
  intros args s events.
  split; [reflexivity|].
  apply (grid_window_handle_is_kept args events s (0, 0, 800, 400)).
  reflexivity.
Defined.

(** ** Pointer moves *)

(** X7: a pointer move during a drag never moves the anchor corner
    [(x1, y1)] of the cursor rectangle and never ends the drag, wherever
    the pointer is, with or without live preview, and also when the
    handler raises part way. *)
Theorem drag_move_keeps_anchor :
  forall (args : Args) (x y : pyfloat) (s : State),
    drag (obj s) = true ->
    let s' := snd (on_mouse_move args x y s) in
    drag (obj s') = true
    /\ x1 (cursor_rect (obj s')) = x1 (cursor_rect (obj s))
    /\ y1 (cursor_rect (obj s')) = y1 (cursor_rect (obj s)).
Proof.
  intros args x y s Hd s'. subst s'.
  rewrite on_mouse_move_run, Hd.
  case_cell_size s cw ch; try (cbn [snd]; now split).
  destruct (cell_index x cw) as [vx|]; [|cbn [snd]; now split].
  cbv zeta.
  destruct (cell_index y ch) as [vy|]; [|cbn; now split].
  rewrite queue_draw_after_obj.
  destruct (live_preview args); [|cbn; now split].
  rewrite live_preview_step_run. cbv zeta. cbn [obj env].
  destruct (last_cursor_rect _) as [l|]; [|cbn; now split].
  destruct (Rect_eq l _); [cbn; now split|].
  rewrite set_target_geometry_keeps_obj. cbn. now split.
Qed.

Lemma drag_move_keeps_anchor_witness :
  let args := WorkedExample.preview_args in
  let s := WorkedExample.dragging in
  drag (obj s) = true
  /\ (let s' := snd (on_mouse_move args (float_lit 450) (float_lit 250) s) in
      drag (obj s') = true
      /\ x1 (cursor_rect (obj s')) = x1 (cursor_rect (obj s))
      /\ y1 (cursor_rect (obj s')) = y1 (cursor_rect (obj s))).
Proof.
  intros args s.
  split; [vm_compute; reflexivity|].
  apply (drag_move_keeps_anchor args (float_lit 450) (float_lit 250) s).
  vm_compute; reflexivity.
Defined.



(** ** Colours *)

Lemma SFcompare_opp (a b : spec_float) :
  SFcompare b a = option_map CompOpp (SFcompare a b).
Proof.
  destruct a as [sa|sa| |sa ma ea], b as [sb|sb| |sb mb eb]; cbn;
    try reflexivity;
    try (destruct sa; reflexivity); try (destruct sb; reflexivity);
    try (destruct sa, sb; reflexivity).
  destruct sa, sb; cbn; try reflexivity;
    rewrite (Z.compare_antisym ea eb);
    destruct (ea ?= eb); cbn; try reflexivity.
  - rewrite (Pos.compare_cont_antisym mb ma Eq). cbn.
    now rewrite CompOpp_involutive.
  - now rewrite (Pos.compare_cont_antisym ma mb Eq).
Qed.

Lemma SFltb_false_leb (a b : spec_float) :
  a <> S754_nan -> b <> S754_nan ->
  (SFltb a b = false <-> SFleb b a = true).
Proof.
  intros Ha Hb. unfold SFltb, SFleb. rewrite (SFcompare_opp a b).
  destruct (SFcompare a b) as [[| |]|] eqn:E; cbn; try (split; congruence).
  exfalso. destruct a, b; cbn in E; try discriminate; congruence.
Qed.

Lemma out_of_unit_false (f : pyfloat) :
  out_of_unit f = false <-> unit_or_nan f.
Proof.
  unfold out_of_unit, unit_or_nan.
  assert (Hdec : f = S754_nan \/ f <> S754_nan) by (destruct f; (now left) || (right; discriminate)).
  destruct Hdec as [->|Hn].
  - split; [now left|reflexivity].
  - rewrite orb_false_iff.
    rewrite (SFltb_false_leb f (S754_zero false) Hn) by discriminate.
    rewrite (SFltb_false_leb fone f) by (try discriminate; exact Hn).
    split; [now right|]. intros [Hc|H]; [contradiction|exact H].
Qed.

Lemma no_component_out_of_unit (l : list pyfloat) :
  existsb out_of_unit l = false <-> Forall unit_or_nan l.
Proof.
  induction l as [|f l IH]; cbn [existsb].
  - split; [constructor|reflexivity].
  - rewrite orb_false_iff, IH, out_of_unit_false. split.
    + intros [Hf Hl]. now constructor.
    + intros H. inversion H; subst. now split.
Qed.

(** X8: [parse_color_spec] returns a colour exactly when the argument has
    three or four fields and none of them is below 0 or above 1; a
    colour of three fields gets the opacity 1.0 appended, a colour of
    four fields is returned as it is. A field that is not a number
    passes both comparisons and is accepted. In every other case the
    function raises [ValueError]. *)
Theorem parse_color_spec_accepts :
  forall (fields color : list pyfloat),
    parse_color_spec fields = Ok color
    <-> ((length fields = 3%nat /\ color = fields ++ [fone])
         \/ (length fields = 4%nat /\ color = fields))
        /\ Forall unit_or_nan fields.
Proof.
  intros fields color. unfold parse_color_spec.
  destruct (length fields =? 3)%nat eqn:E3.
  - apply Nat.eqb_eq in E3.
    assert (E4 : (length (fields ++ [fone]) =? 4)%nat = true)
      by (rewrite length_app, E3; reflexivity).
    rewrite E4. cbn [negb]. rewrite existsb_app. cbn [existsb].
    change (out_of_unit fone) with false. rewrite !orb_false_r.
    destruct (existsb out_of_unit fields) eqn:Ex.
    + split; [discriminate|]. intros [_ HF].
      apply no_component_out_of_unit in HF. congruence.
    + apply no_component_out_of_unit in Ex. split.
      * intros H. injection H as <-. split; [left; now split|exact Ex].
      * intros [[[_ ->]|[H4 _]] _]; [reflexivity|lia].
  - apply Nat.eqb_neq in E3.
    destruct (length fields =? 4)%nat eqn:E4; cbn [negb].
    + apply Nat.eqb_eq in E4.
      destruct (existsb out_of_unit fields) eqn:Ex.
      * split; [discriminate|]. intros [_ HF].
        apply no_component_out_of_unit in HF. congruence.
      * apply no_component_out_of_unit in Ex. split.
        -- intros H. injection H as <-. split; [right; now split|exact Ex].
        -- intros [[[H3 _]|[_ ->]] _]; [lia|reflexivity].
    + apply Nat.eqb_neq in E4. split; [discriminate|].
      intros [[[H3 _]|[H4 _]] _]; lia.
Qed.

(** ** Grid lines *)

Lemma In_py_range (start stop i : Z) :
  In i (py_range start stop) <-> start <= i < stop.
Proof.
  unfold py_range. rewrite in_map_iff. split.
  - intros (k & <- & Hk). apply in_seq in Hk. lia.
  - intros H. exists (Z.to_nat (i - start)). split; [lia|].
    apply in_seq. lia.
Qed.

Lemma length_py_range (start stop : Z) :
  length (py_range start stop) = Z.to_nat (stop - start).
Proof. unfold py_range. now rewrite length_map, length_seq. Qed.

Lemma line_points_app (a b : list cairo_op) :
  line_points (a ++ b) = line_points a ++ line_points b.
Proof. unfold line_points. apply flat_map_app. Qed.

Lemma column_position_inside (width columns i : Z) :
  0 < width -> 1 <= i < columns -> 0 <= i * width / columns < width.
Proof.
  intros Hw Hi. split.
  - apply Z.div_pos; nia.
  - apply Z.div_lt_upper_bound; nia.
Qed.

(** X9: on a drawing area of positive width and height every grid line
    starts and ends inside the area: each point handed to [move_to] or
    [line_to] has [0 <= x < width] and [0 <= y < height], for any number
    of columns and rows. *)
Theorem grid_lines_stay_inside :
  forall (dargs : DrawArgs) (self : GridLock) (w : World) (x y : Z),
    0 < fst (allocation w) ->
    0 < snd (allocation w) ->
    In (x, y) (line_points (on_draw_grid dargs self w)) ->
    0 <= x < fst (allocation w) /\ 0 <= y < snd (allocation w).
Proof.
  intros dargs self w x y HW HH. unfold on_draw_grid. cbv zeta.
  rewrite !line_points_app. rewrite !in_app_iff.
  intros [H|[H|H]].
  - cbn in H. contradiction.
  - unfold line_points in H. apply in_flat_map in H.
    destruct H as (op & Hop & Hin). apply in_flat_map in Hop.
    destruct Hop as (i & Hi & Hop). apply In_py_range in Hi.
    pose proof (column_position_inside (fst (allocation w)) (cols self) i HW Hi).
    cbn in Hop. destruct Hop as [<-|[<-|[<-|[]]]]; cbn in Hin;
      try contradiction; destruct Hin as [Hin|[]]; injection Hin as <- <-; lia.
  - unfold line_points in H. apply in_flat_map in H.
    destruct H as (op & Hop & Hin). apply in_flat_map in Hop.
    destruct Hop as (i & Hi & Hop). apply In_py_range in Hi.
    pose proof (column_position_inside (snd (allocation w)) (rows self) i HH Hi).
    cbn in Hop. destruct Hop as [<-|[<-|[<-|[]]]]; cbn in Hin;
      try contradiction; destruct Hin as [Hin|[]]; injection Hin as <- <-; lia.
Qed.

Lemma grid_lines_stay_inside_witness :
  let self := obj (GridLock_init (4, 2) (WorkedExample.desktop (800, 400))) in
  let w := WorkedExample.desktop (800, 400) in
  (0 < fst (allocation w)
   /\ 0 < snd (allocation w)
   /\ In (600, 399) (line_points (on_draw_grid default_dargs self w)))
  /\ (0 <= 600 < fst (allocation w) /\ 0 <= 399 < snd (allocation w)).
Proof.
  intros self w.
  assert (H1 : 0 < fst (allocation w)) by (vm_compute; reflexivity).
  assert (H2 : 0 < snd (allocation w)) by (vm_compute; reflexivity).
  assert (H3 : In (600, 399) (line_points (on_draw_grid default_dargs self w))).
  { vm_compute. do 5 right. left. reflexivity. }
  split; [split; [exact H1|split; [exact H2|exact H3]]|].
  exact (grid_lines_stay_inside default_dargs self w 600 399 H1 H2 H3).
Defined.

Lemma strokes_of_lines (f : Z -> list cairo_op) (l : list Z) :
  (forall i, length (filter is_stroke (f i)) = 1%nat) ->
  length (filter is_stroke (flat_map f l)) = length l.
Proof.
  intros Hf. induction l as [|i l IH]; [reflexivity|].
  cbn [flat_map]. rewrite filter_app, length_app, Hf, IH. reflexivity.
Qed.

(** X10: [on_draw_grid] strokes one line less than there are columns and
    one line less than there are rows, and none for a dimension of one
    or less; nothing else is stroked. *)
Theorem grid_line_count :
  forall (dargs : DrawArgs) (self : GridLock) (w : World),
    length (filter is_stroke (on_draw_grid dargs self w))
    = (Z.to_nat (cols self - 1) + Z.to_nat (rows self - 1))%nat.
Proof.
  intros dargs self w. unfold on_draw_grid. cbv zeta.
  rewrite !filter_app, !length_app.
  rewrite !strokes_of_lines by reflexivity.
  rewrite !length_py_range. reflexivity.
Qed.

Lemma flat_map_of_map {A B C : Type} (f : B -> list C) (g : A -> B) (l : list A) :
  flat_map f (map g l) = flat_map (fun x => f (g x)) l.
Proof.
  induction l as [|a l IH]; [reflexivity|]. cbn. now rewrite IH.
Qed.

Lemma Sorted_map_seq (g : nat -> Z) (n s : nat) :
  (forall k, g k < g (S k)) -> Sorted Z.lt (map g (seq s n)).
Proof.
  intros Hg. revert s. induction n as [|n IH]; intros s; [constructor|].
  cbn [seq map]. constructor; [apply IH|].
  destruct n as [|n]; cbn [seq map]; constructor. apply Hg.
Qed.

Lemma column_position_step (width columns i : Z) :
  0 < columns -> columns <= width ->
  i * width / columns < (i + 1) * width / columns.
Proof.
  intros Hc Hw.
  assert (H : i * width / columns + 1 <= (i + 1) * width / columns).
  { rewrite <- (Z.div_add (i * width) 1 columns) by lia.
    apply Z.div_le_mono; lia. }
  lia.
Qed.

Lemma Sorted_positions (size count : Z) :
  0 < count -> count <= size ->
  Sorted Z.lt (map (fun i => i * size / count) (py_range 1 count)).
Proof.
  intros Hc Hw. unfold py_range. rewrite map_map.
  apply Sorted_map_seq. intros k.
  replace (1 + Z.of_nat (S k)) with (1 + Z.of_nat k + 1) by lia.
  now apply column_position_step.
Qed.

(** X11: [on_draw_grid] draws the vertical lines at [column_positions]
    and then the horizontal lines at [row_positions]; when there are no
    more columns than pixels of width and no more rows than pixels of
    height, both lists are strictly increasing, so the lines are drawn
    from left to right and from top to bottom and no two of them
    coincide. *)
Theorem grid_lines_increase :
  forall (dargs : DrawArgs) (self : GridLock) (w : World),
    0 < cols self -> cols self <= fst (allocation w) ->
    0 < rows self -> rows self <= snd (allocation w) ->
    let width := fst (allocation w) in
    let height := snd (allocation w) in
    on_draw_grid dargs self w
    = [ SetSourceRgba (bg_color dargs);
        CairoRectangle 0 0 width height;
        CairoFill;
        SetSourceRgba (grid_color dargs);
        SetLineWidth (grid_thickness dargs);
        SetLineJoinRound ]
      ++ flat_map (fun x => [MoveTo x 0; LineTo x (height - 1); Stroke])
           (column_positions width (cols self))
      ++ flat_map (fun y => [MoveTo 0 y; LineTo (width - 1) y; Stroke])
           (row_positions height (rows self))
    /\ Sorted Z.lt (column_positions width (cols self))
    /\ Sorted Z.lt (row_positions height (rows self)).
Proof.
  intros dargs self w Hc Hcw Hr Hrh width height. split; [|split].
  - unfold on_draw_grid, column_positions, row_positions. cbv zeta.
    rewrite !flat_map_of_map. reflexivity.
  - now apply Sorted_positions.
  - now apply Sorted_positions.
Qed.

Lemma grid_lines_increase_witness :
  let self := obj (GridLock_init (4, 2) (WorkedExample.desktop (800, 400))) in
  let w := WorkedExample.desktop (800, 400) in
  (0 < cols self /\ cols self <= fst (allocation w)
   /\ 0 < rows self /\ rows self <= snd (allocation w))
  /\ (let width := fst (allocation w) in
      let height := snd (allocation w) in
      on_draw_grid default_dargs self w
      = [ SetSourceRgba (bg_color default_dargs);
          CairoRectangle 0 0 width height;
          CairoFill;
          SetSourceRgba (grid_color default_dargs);
          SetLineWidth (grid_thickness default_dargs);
          SetLineJoinRound ]
        ++ flat_map (fun x => [MoveTo x 0; LineTo x (height - 1); Stroke])
             (column_positions width (cols self))
        ++ flat_map (fun y => [MoveTo 0 y; LineTo (width - 1) y; Stroke])
             (row_positions height (rows self))
      /\ Sorted Z.lt (column_positions width (cols self))
      /\ Sorted Z.lt (row_positions height (rows self))).
Proof.
  intros self w.
  assert (H1 : 0 < cols self) by (vm_compute; reflexivity).
  assert (H2 : cols self <= fst (allocation w)) by (vm_compute; discriminate).
  assert (H3 : 0 < rows self) by (vm_compute; reflexivity).
  assert (H4 : rows self <= snd (allocation w)) by (vm_compute; discriminate).
  split; [split; [exact H1|split; [exact H2|split; [exact H3|exact H4]]]|].
  exact (grid_lines_increase default_dargs self w H1 H2 H3 H4).
Defined.

(** ** Grids that divide the drawing area evenly *)

Lemma cell_size_even (self : GridLock) (w : World) (cw ch : Z) :
  even_grid self w cw ch ->
  int_truediv (fst (allocation w)) (cols self) = Ok (float_lit cw)
  /\ int_truediv (snd (allocation w)) (rows self) = Ok (float_lit ch).
Proof.
  intros (Hc & Hr & Hw & Hh & Ha & Bw & Bh). rewrite Ha. cbn [fst snd].
  rewrite (Z.mul_comm (cols self)), (Z.mul_comm (rows self)).
  split; apply int_truediv_exact; unfold exact_bound; nia.
Qed.

Lemma even_grid_geometry (args : Args) (self : GridLock) (w : World) (cw ch : Z)
    (c : call) :
  even_grid self w cw ch ->
  small_cells (cursor_rect self) ->
  even_grid_request args self w cw ch = Some c ->
  exists x y width height,
    c = TargetSetGeometry (gravity args) move_resize_mask x y width height
    /\ compute_target_geometry args self w = Ok [x; y; width; height].
Proof.
  intros He (xa & ya & xb & yb & Hr & Bxa & Bya & Bxb & Byb) Hreq.
  destruct (cell_size_even self w cw ch He) as [Hcw Hch].
  destruct He as (Hc & Hrw & Hw & Hh & Ha & Bw & Bh).
  unfold even_grid_request in Hreq. unfold compute_target_geometry.
  rewrite Hcw, Hch. cbn [rbind]. rewrite Hr in *.
  rewrite to_cairo_products_exact by (unfold exact_bound; try lia; nia).
  cbn [normalized Rect_of x1 y1 x2 y2] in Hreq.
  destruct (wnck_window self) as [[[[gx gy] gw] gh]|]; [|discriminate].
  destruct (offset args) as [|ox [|oy [|ow [|oh rest]]]]; try discriminate.
  unfold extents_or_zero in Hreq. cbn [rbind].
  destruct (frame_extents w) as [[[[l r] t] b]|]; injection Hreq as <-;
    do 4 eexists; (split; [reflexivity|]);
    cbn [gtk_frame_offset add_offsets combine map]; unfold sum_pair;
    cbn [fst snd]; apply f_equal;
    repeat (apply (f_equal2 (@cons Z)); [lia|]); reflexivity.
Qed.

(** X12: when the columns and rows divide the drawing area into cells of
    whole pixels, the request of the mapper is exact integer arithmetic:
    the smaller cell indices times the cell size plus the origin of the
    grid window plus the user offset minus the left and top frame
    extents, and the number of cells covered times the cell size plus
    the user offset plus the frame extents of both sides (zero extents
    when the property is missing).  After the target has been
    unmaximized, [set_geometry] is called with these four numbers when
    they are C [int]s; when one of them is not, the call raises
    [OverflowError] and nothing is requested. *)
Theorem set_target_geometry_even_grid :
  forall (args : Args) (s : State) (cell_width cell_height : Z) (c : call),
    even_grid (obj s) (env s) cell_width cell_height ->
    small_cells (cursor_rect (obj s)) ->
    even_grid_request args (obj s) (env s) cell_width cell_height = Some c ->
    set_target_geometry_from_cursor args s
    = if request_fits c
      then (Ok tt, mkState (obj s) (apply_call c (unmaximized (env s))))
      else (Raise OverflowError, mkState (obj s) (unmaximized (env s))).
Proof.
  intros args s cw ch c He Hs Hreq.
  destruct (even_grid_geometry args (obj s) (env s) cw ch c He Hs Hreq)
    as (x & y & wd & ht & -> & Hg).
  now rewrite set_target_geometry_from_cursor_run, Hg.
Qed.

Lemma set_target_geometry_even_grid_witness :
  let args := WorkedExample.args_of [5; -3; 0; 10] in
  let s := mkState
             (set_cursor_rect (Rect_of 2 1 1 0)
                (obj (Gtk_main args [DrawWindow (Some (30, 40, 800, 400))]
                        (GridLock_init (4, 2)
                           (fresh_world WorkedExample.target_at_10_20 true true
                              (Some (1, 2, 24, 3)) (800, 400))))))
             (fresh_world WorkedExample.target_at_10_20 true true
                (Some (1, 2, 24, 3)) (800, 400)) in
  let c := TargetSetGeometry 0 move_resize_mask 234 13 403 437 in
  (even_grid (obj s) (env s) 200 200
   /\ small_cells (cursor_rect (obj s))
   /\ even_grid_request args (obj s) (env s) 200 200 = Some c)
  /\ set_target_geometry_from_cursor args s
     = if request_fits c
       then (Ok tt, mkState (obj s) (apply_call c (unmaximized (env s))))
       else (Raise OverflowError, mkState (obj s) (unmaximized (env s))).
Proof.
  intros args s c.
  assert (H1 : even_grid (obj s) (env s) 200 200).
  { unfold even_grid. vm_compute. repeat split; reflexivity. }
  assert (H2 : small_cells (cursor_rect (obj s))).
  { exists 2, 1, 1, 0. vm_compute. repeat split; reflexivity. }
  assert (H3 : even_grid_request args (obj s) (env s) 200 200 = Some c)
    by (vm_compute; reflexivity).
  split; [split; [exact H1|split; [exact H2|exact H3]]|].
  exact (set_target_geometry_even_grid args s 200 200 c H1 H2 H3).
Defined.

Lemma even_grid_request_moved (args : Args) (g : GridLock) (w : World)
    (cw ch : Z) (r : Rect) :
  even_grid_request args
    (set_drag false
       (set_last_cursor_rect (Rect_copy r) (set_drag true (set_cursor_rect r g))))
    (apply_call CursorQueueDraw w) cw ch
  = even_grid_request args (set_cursor_rect r g) w cw ch.
Proof. reflexivity. Qed.

(** X13: on an evenly divided grid, a pointer move into a cell followed
    by a press and a release of the first button (a click, with no
    drag) makes the session redraw the cursor, unmaximize the target if
    it is maximized and ask for exactly the geometry of that one cell.
    When the four numbers of the request are C [int]s the request is
    made and the main loop is left, with no exception; when one of them
    is not, [set_geometry] raises [OverflowError], nothing is requested
    and the main loop goes on. *)
Theorem click_snaps_to_cell :
  forall (args : Args) (s : State) (x y : pyfloat)
         (cell_width cell_height vx vy : Z) (c : call),
    main_quit (env s) = false ->
    drag (obj s) = false ->
    even_grid (obj s) (env s) cell_width cell_height ->
    cell_index x (float_lit cell_width) = Ok vx ->
    cell_index y (float_lit cell_height) = Ok vy ->
    Z.abs vx < 1048576 -> Z.abs vy < 1048576 ->
    even_grid_request args (set_cursor_rect (Rect_of vx vy vx vy) (obj s))
      (env s) cell_width cell_height = Some c ->
    let s' := Gtk_main args
                [MotionNotify x y; ButtonPress 1; ButtonRelease 1] s in
    if request_fits c then
      calls (env s')
      = calls (env s) ++ [CursorQueueDraw] ++ unmaximize_calls (env s)
        ++ [c; GtkMainQuit]
      /\ main_quit (env s') = true
      /\ tracebacks (env s') = tracebacks (env s)
    else
      calls (env s')
      = calls (env s) ++ [CursorQueueDraw] ++ unmaximize_calls (env s)
      /\ main_quit (env s') = false
      /\ tracebacks (env s') = tracebacks (env s) ++ [OverflowError].
Proof.
  intros args s x y cw ch vx vy c Hq Hd He Hvx Hvy Bx By Hreq s'.
  destruct (cell_size_even (obj s) (env s) cw ch He) as [Hcw Hch].
  subst s'. cbn [Gtk_main]. rewrite Hq.
  assert (H1 : step args (MotionNotify x y) s
               = mkState (set_cursor_rect (Rect_of vx vy vx vy) (obj s))
                   (apply_call CursorQueueDraw (env s))).
  { unfold step. cbn [dispatch].
    now rewrite on_mouse_move_run, Hcw, Hch, Hvx, Hd, Hvy. }
  rewrite H1. cbn [env main_quit apply_call]. rewrite Hq.
  set (g1 := set_cursor_rect (Rect_of vx vy vx vy) (obj s)).
  set (w1 := apply_call CursorQueueDraw (env s)).
  assert (H2 : step args (ButtonPress 1) (mkState g1 w1)
               = mkState (set_last_cursor_rect (Rect_copy (cursor_rect g1))
                            (set_drag true g1)) w1) by reflexivity.
  rewrite H2. cbn [env]. subst w1. cbn [main_quit apply_call]. rewrite Hq.
  set (w1 := apply_call CursorQueueDraw (env s)).
  set (g2 := set_last_cursor_rect (Rect_copy (cursor_rect g1)) (set_drag true g1)).
  assert (He3 : even_grid (set_drag false g2) w1 cw ch).
  { destruct He as (A & B & C & D & E & F & G).
    repeat split; assumption. }
  assert (Hs3 : small_cells (cursor_rect (set_drag false g2))).
  { exists vx, vy, vx, vy. repeat split; assumption. }
  assert (Hreq3 : even_grid_request args (set_drag false g2) w1 cw ch = Some c)
    by exact Hreq.
  destruct (even_grid_geometry args _ _ cw ch c He3 Hs3 Hreq3)
    as (px & py & pw & ph & -> & Hg).
  assert (Hw1 : calls (unmaximized w1)
                = calls (env s) ++ [CursorQueueDraw] ++ unmaximize_calls (env s)).
  { rewrite <- apply_unmaximize_calls, calls_apply_calls.
    subst w1. cbn [calls apply_call]. now rewrite <- app_assoc. }
  assert (Hq1 : main_quit (unmaximized w1) = false).
  { unfold unmaximized. destruct (is_maximized w1); exact Hq. }
  assert (Ht1 : tracebacks (unmaximized w1) = tracebacks (env s)).
  { unfold unmaximized. now destruct (is_maximized w1). }
  unfold step. cbn [dispatch]. rewrite on_mouse_release_run.
  rewrite set_target_geometry_from_cursor_run. cbn [obj env]. rewrite Hg.
  cbn [request_fits].
  destruct (fits_c_ints px py pw ph);
    cbn [env obj tracebacks main_quit apply_call calls add_traceback].
  - rewrite Hw1, Ht1, <- !app_assoc. repeat split; reflexivity.
  - rewrite Hw1, Hq1, Ht1. repeat split; reflexivity.
Qed.

Lemma click_snaps_to_cell_witness :
  let args := WorkedExample.args_of [0; 0; 0; 0] in
  let s := Gtk_main args [DrawWindow (Some (0, 0, 800, 400))]
             (GridLock_init (4, 2) (WorkedExample.desktop (800, 400))) in
  let x := float_lit 250 in
  let y := float_lit 50 in
  let c := TargetSetGeometry 0 move_resize_mask 200 0 200 200 in
  (main_quit (env s) = false
   /\ drag (obj s) = false
   /\ even_grid (obj s) (env s) 200 200
   /\ cell_index x (float_lit 200) = Ok 1
   /\ cell_index y (float_lit 200) = Ok 0
   /\ Z.abs 1 < 1048576 /\ Z.abs 0 < 1048576
   /\ even_grid_request args (set_cursor_rect (Rect_of 1 0 1 0) (obj s))
        (env s) 200 200 = Some c)
  /\ (let s' := Gtk_main args
                  [MotionNotify x y; ButtonPress 1; ButtonRelease 1] s in
      if request_fits c then
        calls (env s')
        = calls (env s) ++ [CursorQueueDraw] ++ unmaximize_calls (env s)
          ++ [c; GtkMainQuit]
        /\ main_quit (env s') = true
        /\ tracebacks (env s') = tracebacks (env s)
      else
        calls (env s')
        = calls (env s) ++ [CursorQueueDraw] ++ unmaximize_calls (env s)
        /\ main_quit (env s') = false
        /\ tracebacks (env s') = tracebacks (env s) ++ [OverflowError]).
Proof.
  intros args s x y c.
  assert (H1 : main_quit (env s) = false) by (vm_compute; reflexivity).
  assert (H2 : drag (obj s) = false) by (vm_compute; reflexivity).
  assert (H3 : even_grid (obj s) (env s) 200 200).
  { unfold even_grid. vm_compute. repeat split; reflexivity. }
  assert (H4 : cell_index x (float_lit 200) = Ok 1) by (vm_compute; reflexivity).
  assert (H5 : cell_index y (float_lit 200) = Ok 0) by (vm_compute; reflexivity).
  assert (H6 : Z.abs 1 < 1048576) by (vm_compute; reflexivity).
  assert (H7 : Z.abs 0 < 1048576) by (vm_compute; reflexivity).
  assert (H8 : even_grid_request args
                 (set_cursor_rect (Rect_of 1 0 1 0) (obj s)) (env s) 200 200
               = Some c) by (vm_compute; reflexivity).
  split.
  { split; [exact H1|]. split; [exact H2|]. split; [exact H3|].
    split; [exact H4|]. split; [exact H5|]. split; [exact H6|].
    split; [exact H7|exact H8]. }
  exact (click_snaps_to_cell args s x y 200 200 1 0 c H1 H2 H3 H4 H5 H6 H7 H8).
Defined.

Lemma In_column_line (dargs : DrawArgs) (self : GridLock) (w : World) (i : Z) :
  1 <= i < cols self ->
  In (MoveTo (i * fst (allocation w) / cols self) 0) (on_draw_grid dargs self w).
Proof.
  intros Hi. unfold on_draw_grid. cbv zeta.
  apply in_or_app. right. apply in_or_app. left.
  apply in_flat_map. exists i. split; [now apply In_py_range|now left].
Qed.

Lemma In_row_line (dargs : DrawArgs) (self : GridLock) (w : World) (j : Z) :
  1 <= j < rows self ->
  In (MoveTo 0 (j * snd (allocation w) / rows self)) (on_draw_grid dargs self w).
Proof.
  intros Hj. unfold on_draw_grid. cbv zeta.
  apply in_or_app. right. apply in_or_app. right.
  apply in_flat_map. exists j. split; [now apply In_py_range|now left].
Qed.

(** X14: on an evenly divided grid the highlight and the grid agree: the
    cell size the handlers compute is the whole cell size, and the box
    of the single cell [(i, j)] has its corner at the pixel where
    [on_draw_grid] draws the vertical line [i] and the horizontal line
    [j] (for [i], [j] of 1 or more; the first column and row start at
    pixel 0) and is exactly one cell wide and high. *)
Theorem cell_box_on_grid_lines :
  forall (dargs : DrawArgs) (self : GridLock) (w : World)
         (cell_width cell_height i j : Z),
    even_grid self w cell_width cell_height ->
    0 <= i < cols self -> 0 <= j < rows self ->
    let px := i * fst (allocation w) / cols self in
    let py := j * snd (allocation w) / rows self in
    int_truediv (fst (allocation w)) (cols self) = Ok (float_lit cell_width)
    /\ int_truediv (snd (allocation w)) (rows self) = Ok (float_lit cell_height)
    /\ to_cairo (Rect_of i j i j) (float_lit cell_width) (float_lit cell_height)
       = Ok (px, py, cell_width, cell_height)
    /\ (1 <= i -> In (MoveTo px 0) (on_draw_grid dargs self w))
    /\ (1 <= j -> In (MoveTo 0 py) (on_draw_grid dargs self w)).
Proof.
  intros dargs self w cw ch i j He Hi Hj px py.
  destruct (cell_size_even self w cw ch He) as [Hcw Hch].
  destruct He as (Hc & Hr & Hw & Hh & Ha & Bw & Bh).
  split; [exact Hcw|]. split; [exact Hch|].
  assert (Hpx : px = i * cw).
  { subst px. rewrite Ha. cbn [fst].
    replace (i * (cols self * cw)) with (i * cw * cols self) by ring.
    apply Z.div_mul. lia. }
  assert (Hpy : py = j * ch).
  { subst py. rewrite Ha. cbn [snd].
    replace (j * (rows self * ch)) with (j * ch * rows self) by ring.
    apply Z.div_mul. lia. }
  split.
  - rewrite to_cairo_products_exact; unfold exact_bound;
      rewrite ?Z.min_id, ?Z.max_id; try nia.
    rewrite Hpx, Hpy. repeat f_equal; lia.
  - split; intros H1.
    + apply In_column_line. lia.
    + apply In_row_line. lia.
Qed.

Lemma cell_box_on_grid_lines_witness :
  let self := obj (GridLock_init (4, 2) (WorkedExample.desktop (800, 400))) in
  let w := WorkedExample.desktop (800, 400) in
  (even_grid self w 200 200 /\ 0 <= 3 < cols self /\ 0 <= 1 < rows self)
  /\ (let px := 3 * fst (allocation w) / cols self in
      let py := 1 * snd (allocation w) / rows self in
      int_truediv (fst (allocation w)) (cols self) = Ok (float_lit 200)
      /\ int_truediv (snd (allocation w)) (rows self) = Ok (float_lit 200)
      /\ to_cairo (Rect_of 3 1 3 1) (float_lit 200) (float_lit 200)
         = Ok (px, py, 200, 200)
      /\ (1 <= 3 -> In (MoveTo px 0) (on_draw_grid default_dargs self w))
      /\ (1 <= 1 -> In (MoveTo 0 py) (on_draw_grid default_dargs self w))).
Proof.
  intros self w.
  assert (H1 : even_grid self w 200 200).
  { unfold even_grid. vm_compute. repeat split; reflexivity. }
  assert (H2 : 0 <= 3 < cols self) by (vm_compute; split; [discriminate|reflexivity]).
  assert (H3 : 0 <= 1 < rows self) by (vm_compute; split; [discriminate|reflexivity]).
  split; [split; [exact H1|split; [exact H2|exact H3]]|].
  exact (cell_box_on_grid_lines default_dargs self w 200 200 3 1 H1 H2 H3).
Defined.

(** X15: the start-up code accepts a grid of zero columns, and then
    every handler that needs the cell size fails: [on_mouse_move] and
    [on_draw_cursor] raise [ZeroDivisionError] and leave the state as it
    was, and the mapper raises it after the target has been unmaximized,
    with no geometry request. [on_draw_grid] does not raise: it draws
    the background and the horizontal lines and no vertical line. *)
Theorem zero_columns_raise :
  forall (args : Args) (dargs : DrawArgs) (x y : pyfloat) (s : State),
    cols (obj s) = 0 ->
    on_mouse_move args x y s = (Raise ZeroDivisionError, s)
    /\ on_draw_cursor s = (Raise ZeroDivisionError, s)
    /\ set_target_geometry_from_cursor args s
       = (Raise ZeroDivisionError, mkState (obj s) (unmaximized (env s)))
    /\ on_draw_grid dargs (obj s) (env s)
       = [ SetSourceRgba (bg_color dargs);
           CairoRectangle 0 0 (fst (allocation (env s)))
             (snd (allocation (env s)));
           CairoFill;
           SetSourceRgba (grid_color dargs);
           SetLineWidth (grid_thickness dargs);
           SetLineJoinRound ]
         ++ flat_map (row_line (fst (allocation (env s)))
                        (snd (allocation (env s))) (rows (obj s)))
              (py_range 1 (rows (obj s))).
Proof.
  intros args dargs x y s Hc.
  assert (Hdiv : int_truediv (fst (allocation (env s))) (cols (obj s))
                 = Raise ZeroDivisionError) by now rewrite Hc.
  split; [now rewrite on_mouse_move_run, Hdiv|].
  split.
  { unfold on_draw_cursor. unfold bind at 1. now rewrite cell_size_run, Hdiv. }
  split.
  { rewrite set_target_geometry_from_cursor_run.
    unfold compute_target_geometry. now rewrite Hdiv. }
  unfold on_draw_grid. cbv zeta. rewrite Hc. reflexivity.
Qed.

Lemma zero_columns_raise_witness :
  let args := WorkedExample.args_of [0; 0; 0; 0] in
  let s := GridLock_init (0, 2) (WorkedExample.desktop (800, 400)) in
  cols (obj s) = 0
  /\ (on_mouse_move args (float_lit 250) (float_lit 50) s
      = (Raise ZeroDivisionError, s)
      /\ on_draw_cursor s = (Raise ZeroDivisionError, s)
      /\ set_target_geometry_from_cursor args s
         = (Raise ZeroDivisionError, mkState (obj s) (unmaximized (env s)))
      /\ on_draw_grid default_dargs (obj s) (env s)
         = [ SetSourceRgba (bg_color default_dargs);
             CairoRectangle 0 0 (fst (allocation (env s)))
               (snd (allocation (env s)));
             CairoFill;
             SetSourceRgba (grid_color default_dargs);
             SetLineWidth (grid_thickness default_dargs);
             SetLineJoinRound ]
           ++ flat_map (row_line (fst (allocation (env s)))
                          (snd (allocation (env s))) (rows (obj s)))
                (py_range 1 (rows (obj s)))).
Proof.
  intros args s.
  split; [reflexivity|].
  apply (zero_columns_raise args default_dargs (float_lit 250) (float_lit 50) s).
  reflexivity.
Defined.
